(** * add_doe_content_template: the DOE content template bot

    A shallow embedding of [add_doe_content_template.py] and the properties
    of its header detection, its section scan, its template insertion and
    its bookmark handling.

    Text is modelled by [string]; a character is a code point below 256.
    The wiki behind [pywikibot] is modelled by the read and save operations
    the bot uses, the listing API by the list of titles it answers. *)

From Stdlib Require Import String Ascii List Arith ZArith Lia Bool Sorted.
Import ListNotations.
Open Scope string_scope.
Open Scope nat_scope.
Open Scope list_scope.

(** ** Python [str] operations used by the bot *)

Module PyStr.

(** [str.isspace] on one character (code points below 256). *)
Definition isspace (c : ascii) : bool :=
  let n := nat_of_ascii c in
  ((9 <=? n) && (n <=? 13)) || ((28 <=? n) && (n <=? 32))
  || (n =? 133) || (n =? 160).

Fixpoint lstrip (s : string) : string :=
  match s with
  | EmptyString => EmptyString
  | String c s' => if isspace c then lstrip s' else s
  end.

Fixpoint rstrip (s : string) : string :=
  match s with
  | EmptyString => EmptyString
  | String c s' =>
      match rstrip s' with
      | EmptyString => if isspace c then EmptyString else String c EmptyString
      | r => String c r
      end
  end.

(** [s.strip()] *)
Definition strip (s : string) : string := rstrip (lstrip s).

Definition lower_char (c : ascii) : ascii :=
  let n := nat_of_ascii c in
  if ((65 <=? n) && (n <=? 90))
     || ((192 <=? n) && (n <=? 222) && negb (n =? 215))
  then ascii_of_nat (n + 32) else c.

(** [s.lower()] *)
Fixpoint lower (s : string) : string :=
  match s with
  | EmptyString => EmptyString
  | String c s' => String (lower_char c) (lower s')
  end.

Definition newline : ascii := ascii_of_nat 10.

(** [s.split('\n')]: never empty, one more piece than there are newlines. *)
Fixpoint split_lines (s : string) : list string :=
  match s with
  | EmptyString => [EmptyString]
  | String c s' =>
      if Ascii.eqb c newline then EmptyString :: split_lines s'
      else match split_lines s' with
           | h :: t => String c h :: t
           | [] => [String c EmptyString]
           end
  end.

(** ['\n'.join(lines)] *)
Definition join_lines (lines : list string) : string :=
  String.concat (String newline EmptyString) lines.

(** A slice bound as Python normalises it: a negative bound counts from
    the end, and both are clamped to the string. *)
Definition clamp_index (len i : Z) : Z :=
  if (i <? 0)%Z then Z.max (i + len) 0 else Z.min i len.

(** [s[i:j]] *)
Definition slice (s : string) (i j : Z) : string :=
  let len := Z.of_nat (String.length s) in
  let lo := clamp_index len i in
  let hi := clamp_index len j in
  substring (Z.to_nat lo) (Z.to_nat (hi - lo)) s.

(** [lst.insert(i, x)] for [i >= 0]: past the end it appends. *)
Definition list_insert {A : Type} (i : nat) (x : A) (l : list A) : list A :=
  firstn i l ++ x :: skipn i l.

End PyStr.

(** ** The fragment of Python's [re] the title pattern needs

    A pattern is a sequence of nodes: the anchors [^] and [$] and a
    character class under a quantifier, captured as a group or not.
    Matching is the backtracking one of [re]: a quantifier is greedy and
    gives characters back one at a time when the rest of the pattern
    fails. *)

Module Re.

Inductive quant : Type :=
| Once        (* [c]  *)
| Opt         (* [c]? *)
| Star        (* [c]* *)
| Plus.       (* [c]+ *)

Inductive node : Type :=
| Bol                                        (* ^ *)
| Eol                                        (* $ *)
| Cls (p : ascii -> bool) (q : quant)        (* [..]q *)
| Grp (p : ascii -> bool) (q : quant).       (* ([..]q) *)

Definition regex : Type := list node.

Section Backtracking.
Context {A : Type}.

(** [[..]*] in front of the continuation [k]: the longest run first. *)
Fixpoint greedy (p : ascii -> bool) (s : string)
         (k : string -> string -> option A) : option A :=
  match s with
  | String c s' =>
      if p c then
        match greedy p s' (fun taken rest => k (String c taken) rest) with
        | Some r => Some r
        | None => k EmptyString s
        end
      else k EmptyString s
  | EmptyString => k EmptyString s
  end.

Definition quantified (p : ascii -> bool) (q : quant) (s : string)
           (k : string -> string -> option A) : option A :=
  match q with
  | Once =>
      match s with
      | String c s' => if p c then k (String c EmptyString) s' else None
      | EmptyString => None
      end
  | Opt =>
      match s with
      | String c s' =>
          if p c then
            match k (String c EmptyString) s' with
            | Some r => Some r
            | None => k EmptyString s
            end
          else k EmptyString s
      | EmptyString => k EmptyString s
      end
  | Star => greedy p s k
  | Plus =>
      match s with
      | String c s' =>
          if p c then greedy p s' (fun taken rest => k (String c taken) rest)
          else None
      | EmptyString => None
      end
  end.
End Backtracking.

(** [$] without MULTILINE: the end of the string, or just before a
    newline that ends the string. *)
Definition at_end (s : string) : bool :=
  match s with
  | EmptyString => true
  | String c EmptyString => Ascii.eqb c PyStr.newline
  | _ => false
  end.

(** Match [re] at offset [pos], [s] being what is left of the subject;
    the answer is the end offset and the groups captured, in order. *)
Fixpoint match_here (re : regex) (pos : nat) (s : string)
         (groups : list string) : option (nat * list string) :=
  match re with
  | [] => Some (pos, groups)
  | Bol :: re' => if pos =? 0 then match_here re' pos s groups else None
  | Eol :: re' => if at_end s then match_here re' pos s groups else None
  | Cls p q :: re' =>
      quantified p q s
        (fun taken rest =>
           match_here re' (pos + String.length taken) rest groups)
  | Grp p q :: re' =>
      quantified p q s
        (fun taken rest =>
           match_here re' (pos + String.length taken) rest
                      (groups ++ [taken]))
  end.

(** A match object. *)
Record match_obj : Type := MkMatch {
  m_string : string;
  m_start : nat;
  m_end : nat;
  m_groups : list string
}.

(** [m.group(0)] and [m.group(n)] for [n >= 1]. *)
Definition group0 (m : match_obj) : string :=
  substring (m_start m) (m_end m - m_start m) (m_string m).

Definition group (m : match_obj) (n : nat) : string :=
  match n with
  | 0 => group0 m
  | S n' => nth n' (m_groups m) EmptyString
  end.

(** [regex.search]: the first offset of the subject where the pattern
    matches. *)
Fixpoint search_from (re : regex) (subject : string) (pos : nat)
         (s : string) : option match_obj :=
  match match_here re pos s [] with
  | Some (e, gs) => Some (MkMatch subject pos e gs)
  | None =>
      match s with
      | EmptyString => None
      | String _ s' => search_from re subject (S pos) s'
      end
  end.

Definition search (re : regex) (subject : string) : option match_obj :=
  search_from re subject 0 subject.

End Re.

(** ** Constants of the module *)

Definition PAGES_TO_GO_THROUGH : nat := 25.

Definition STORAGE_PAGE : string := "File:AddDOEContentTemplate".

Definition TEMPLATE_STR : string := "{{DOE content needed}}".

Definition is_eq_sign (c : ascii) : bool := Ascii.eqb c "="%char.

Definition is_blank_char (c : ascii) : bool := Ascii.eqb c " "%char.

(** The compiled title pattern: [^], a group of one or more [=], a group
    of characters other than [=], a group of one or more [=], an optional
    blank, [$]. *)
Definition title_search : Re.regex :=
  [ Re.Bol;
    Re.Grp is_eq_sign Re.Plus;
    Re.Grp (fun c => negb (is_eq_sign c)) Re.Star;
    Re.Grp is_eq_sign Re.Plus;
    Re.Cls is_blank_char Re.Opt;
    Re.Eol ].

Definition doe_titles : list string := ["topic at doe"; "doe relevance"].

(** [name in doe_titles] *)
Definition in_doe_titles (name : string) : bool :=
  existsb (String.eqb name) doe_titles.

(** ** Header detection *)

Definition _detect_general_title (line : string) : bool :=
  match Re.search title_search line with
  | Some _ => true
  | None => false
  end.

(** The name [_detect_doe_header] parses out of a match. *)
Definition true_name (m : Re.match_obj) : string :=
  let start_level := String.length (Re.group m 1) in
  let end_level := String.length (Re.group m 3) in
  let true_level := Nat.min start_level end_level in
  PyStr.lower
    (PyStr.strip
       (PyStr.slice (Re.group m 0)
                    (Z.of_nat true_level) (- Z.of_nat true_level))).

Definition _detect_doe_header (line : string) : bool :=
  match Re.search title_search line with
  | None => false
  | Some m => in_doe_titles (true_name m)
  end.

(** ** The section scan of [main_function] *)

(** The variables the loop over the lines updates. *)
Record scan_state : Type := MkScan {
  in_doe_header : bool;
  this_section_has_content : bool;
  lines_to_insert : list nat
}.

Definition scan_init : scan_state := MkScan false false [].

(** One turn of the loop, on line [line] numbered [line_no]. *)
Definition scan_step (st : scan_state) (line_no : nat) (line : string)
  : scan_state :=
  if negb (in_doe_header st) then
    if _detect_doe_header line then
      MkScan true false (lines_to_insert st)
    else st
  else
    if _detect_general_title line then
      let inserted :=
        if negb (this_section_has_content st)
        then lines_to_insert st ++ [line_no]
        else lines_to_insert st in
      if _detect_doe_header line then MkScan true false inserted
      else MkScan (in_doe_header st) (this_section_has_content st) inserted
    else
      if 0 <? String.length (PyStr.strip line) then
        MkScan (in_doe_header st) true (lines_to_insert st)
      else st.

(** The loop over [enumerate(page_lines)], from line number [line_no]. *)
Fixpoint scan_loop (st : scan_state) (line_no : nat) (page_lines : list string)
  : scan_state :=
  match page_lines with
  | [] => st
  | line :: rest => scan_loop (scan_step st line_no line) (S line_no) rest
  end.

Definition scan (page_lines : list string) : scan_state :=
  scan_loop scan_init 0 page_lines.

(** The insertion plan of a page. *)
Definition insertion_points (page_lines : list string) : list nat :=
  lines_to_insert (scan page_lines).

(** ** Inserting the templates *)

(** The loop over [lines_to_insert], [templates_inserted] counting up. *)
Fixpoint insert_templates (plan : list nat) (templates_inserted : nat)
         (page_lines : list string) : list string :=
  match plan with
  | [] => page_lines
  | line_no :: rest =>
      insert_templates rest (S templates_inserted)
        (PyStr.list_insert (line_no + templates_inserted) TEMPLATE_STR
                           page_lines)
  end.

Definition apply_plan (plan : list nat) (page_lines : list string)
  : list string :=
  insert_templates plan 0 page_lines.

(** The same plan applied as the specification words it: into a copy of
    the original sequence, lowest index first, the shift of an index being
    read off the current length each time. *)
Fixpoint insert_rereading (original_length : nat) (plan : list nat)
         (current : list string) : list string :=
  match plan with
  | [] => current
  | idx :: rest =>
      insert_rereading original_length rest
        (PyStr.list_insert (idx + (List.length current - original_length))
                           TEMPLATE_STR current)
  end.

Definition apply_plan_spec (plan : list nat) (page_lines : list string)
  : list string :=
  insert_rereading (List.length page_lines) plan page_lines.

(** ** The wiki and the bot *)

(** The wiki as the bot sees it: the text of every page (empty for a page
    that does not exist) and the saves issued so far, each with its title,
    text and change comment. *)
Record wiki : Type := MkWiki {
  page_text : string -> string;
  saves : list (string * string * string)
}.

(** [page.text = text; page.save(comment)] on the page [title]. *)
Definition save_page (w : wiki) (title text comment : string) : wiki :=
  MkWiki (fun t => if String.eqb t title then text else page_text w t)
         (saves w ++ [(title, text, comment)]).

Definition _get_page_text (w : wiki) (page_name : string) : list string :=
  PyStr.split_lines (page_text w page_name).

Definition insert_comment : string :=
  "Inserted the DOE content needed template.".

Definition main_function (w : wiki) (page_title : string) : wiki :=
  let page_lines := _get_page_text w page_title in
  let plan := insertion_points page_lines in
  match plan with
  | [] => w
  | _ :: _ =>
      save_page w page_title
                (PyStr.join_lines (apply_plan plan page_lines))
                insert_comment
  end.

Section Bot.

(** The page that stores where the next run starts. *)
Variable reference_page_title : string.

(** The titles the listing API answers, for the wiki as it is, a start
    title ([apfrom]) and a limit ([aplimit]). *)
Variable allpages : wiki -> string -> nat -> list string.

(** The answer of the listing, [data["query"]["allpages"]]: the list the
    JSON decodes to, here the list of its titles in the order given. *)
Definition pages_from (w : wiki) (start_point : string) : list string :=
  allpages w start_point PAGES_TO_GO_THROUGH.

Definition get_page_start (w : wiki) : string :=
  hd EmptyString (PyStr.split_lines (page_text w reference_page_title)).

Definition set_page_start (w : wiki) (new_start : string) : wiki :=
  save_page w reference_page_title new_start
            "Store new page from last execution.".

(** The loop of [run] over the pages: the wiki and [last_page_seen]. *)
Fixpoint run_pages (pages_to_run : list string) (w : wiki)
         (last_page_seen : string) : wiki * string :=
  match pages_to_run with
  | [] => (w, last_page_seen)
  | title :: rest => run_pages rest (main_function w title) title
  end.

Definition run (w : wiki) : wiki :=
  let start_page_title := get_page_start w in
  let pages_to_run := pages_from w start_page_title in
  let '(w', last_page_seen) := run_pages pages_to_run w EmptyString in
  if List.length pages_to_run <? PAGES_TO_GO_THROUGH
  then set_page_start w' EmptyString
  else set_page_start w' last_page_seen.

End Bot.

(** ** Predicates the properties are stated with *)

(** An entry of the plan of [page]: not the first line, and the index of a
    line that is a title. *)
Definition plan_entry_ok (page : list string) (i : nat) : Prop :=
  1 <= i /\ i < List.length page /\
  exists line, nth_error page i = Some line
               /\ _detect_general_title line = true.

Definition scan_inv (page : list string) (st : scan_state) : Prop :=
  StronglySorted lt (lines_to_insert st)
  /\ Forall (plan_entry_ok page) (lines_to_insert st)
  /\ (in_doe_header st = true -> 1 <= List.length page).

(** [n] times the character [c]. *)
Fixpoint repeat_char (c : ascii) (n : nat) : string :=
  match n with
  | 0 => EmptyString
  | S n' => String c (repeat_char c n')
  end.

(** Every character of [s] satisfies [p]. *)
Fixpoint all_chars (p : ascii -> bool) (s : string) : bool :=
  match s with
  | EmptyString => true
  | String c s' => p c && all_chars p s'
  end.

Definition equals (n : nat) : string := repeat_char "="%char n.

Definition no_equals (s : string) : bool :=
  all_chars (fun c => negb (is_eq_sign c)) s.

(** The title form as the specification words it: a run of [=], text
    without [=], a run of [=], then any trailing whitespace. *)
Definition title_form_spec (line : string) : Prop :=
  exists (a b : nat) (text ws : string),
    line = (equals (S a) ++ text ++ equals (S b) ++ ws)%string
    /\ no_equals text = true
    /\ all_chars PyStr.isspace ws = true.

(** The title form of the pattern: a run of [=], text without [=], a run
    of [=], then at most one blank and at most one final newline. *)
Definition title_form (line : string) : Prop :=
  exists (a b : nat) (text : string) (blank nl : bool),
    line = (equals (S a) ++ text ++ equals (S b)
            ++ (if blank then " " else "")
            ++ (if nl then String PyStr.newline "" else ""))%string
    /\ no_equals text = true.

(** How many characters a quantifier may take. *)
Definition quant_fits (q : Re.quant) (n : nat) : Prop :=
  match q with
  | Re.Once => n = 1
  | Re.Opt => n <= 1
  | Re.Star => True
  | Re.Plus => 1 <= n
  end.

(** [s] holds no newline. *)
Definition no_newline (s : string) : bool :=
  all_chars (fun c => negb (Ascii.eqb c PyStr.newline)) s.

(** The number of newlines of [s]. *)
Fixpoint count_newlines (s : string) : nat :=
  match s with
  | EmptyString => 0
  | String c s' =>
      (if Ascii.eqb c PyStr.newline then 1 else 0) + count_newlines s'
  end.

(** The page with the template directly above every line whose number is
    in [plan]; [line_no] is the number of the first of [lines]. *)
Fixpoint with_templates (plan : list nat) (line_no : nat)
         (lines : list string) : list string :=
  match lines with
  | [] => []
  | line :: rest =>
      (if existsb (Nat.eqb line_no) plan
       then [TEMPLATE_STR; line] else [line])
        ++ with_templates plan (S line_no) rest
  end.

(** A line that does not count as content of a section: a title, or a
    line that strips to nothing. *)
Definition no_content (line : string) : bool :=
  _detect_general_title line || (String.length (PyStr.strip line) =? 0).

(** The lines end in a section that a DOE header opened and that has no
    content so far. *)
Definition open_empty (page : list string) : Prop :=
  exists before header between,
    page = before ++ header :: between
    /\ _detect_doe_header header = true
    /\ Forall (fun l => no_content l = true) between.

(** Line [i] of the page is a title, and the lines before it end in an
    open section without content. *)
Definition closes_empty_section (page : list string) (i : nat) : Prop :=
  exists pre line post,
    page = pre ++ line :: post
    /\ List.length pre = i
    /\ _detect_general_title line = true
    /\ open_empty pre.

(** What the state of the scan says about the lines read so far. *)
Definition scan_meaning (page : list string) (st : scan_state) : Prop :=
  (in_doe_header st = false ->
   Forall (fun l => _detect_doe_header l = false) page)
  /\ (in_doe_header st = true /\ this_section_has_content st = false
      <-> open_empty page)
  /\ (forall i, In i (lines_to_insert st) <-> closes_empty_section page i).

(** The last character of a string. *)
Fixpoint last_char (s : string) : option ascii :=
  match s with
  | EmptyString => None
  | String c EmptyString => Some c
  | String _ s' => last_char s'
  end.

(** [s] does not begin with a character of the class [p]. *)
Definition head_not (p : ascii -> bool) (s : string) : bool :=
  match s with
  | EmptyString => true
  | String c _ => negb (p c)
  end.

(** A header with [a] and [b] signs around [text], then nothing or a
    final newline. *)
Definition header_line (a : nat) (text : string) (b : nat) (nl : bool)
  : string :=
  (equals a ++ text ++ equals b
   ++ (if nl then String PyStr.newline "" else ""))%string.

(** * Properties *)

(** ** The scan loop *)

Lemma scan_loop_app (st : scan_state) (n : nat) (l1 l2 : list string) :
  scan_loop st n (l1 ++ l2)
  = scan_loop (scan_loop st n l1) (n + List.length l1) l2.
Proof.
  revert st n; induction l1 as [|l l1 IH]; intros st n; simpl.
  - now rewrite Nat.add_0_r.
  - rewrite IH. f_equal. lia.
Qed.

Lemma scan_snoc (pre : list string) (line : string) :
  scan (pre ++ [line]) = scan_step (scan pre) (List.length pre) line.
Proof. unfold scan. now rewrite scan_loop_app. Qed.

(** A recognised DOE header is a title: both read the same match. *)
Lemma doe_header_is_title (line : string) :
  _detect_doe_header line = true -> _detect_general_title line = true.
Proof.
  unfold _detect_doe_header, _detect_general_title.
  destruct (Re.search title_search line); [reflexivity | discriminate].
Qed.

(** Once inside a section the scan stays inside: no branch of the loop
    clears [in_doe_header]. *)
Lemma scan_step_stays_in (st : scan_state) (n : nat) (line : string) :
  in_doe_header st = true -> in_doe_header (scan_step st n line) = true.
Proof.
  intros Hin. unfold scan_step. rewrite Hin; simpl.
  destruct (_detect_general_title line).
  - destruct (_detect_doe_header line); simpl; auto.
  - destruct (0 <? _); simpl; auto.
Qed.

(** A line that is no title adds no insertion point. *)
Lemma scan_step_no_title (st : scan_state) (n : nat) (line : string) :
  _detect_general_title line = false ->
  lines_to_insert (scan_step st n line) = lines_to_insert st.
Proof.
  intros Ht. unfold scan_step.
  destruct (in_doe_header st); simpl.
  - rewrite Ht. destruct (0 <? _); reflexivity.
  - destruct (_detect_doe_header line) eqn:Hd; [|reflexivity].
    apply doe_header_is_title in Hd. congruence.
Qed.

Lemma scan_loop_no_title (lines : list string) :
  Forall (fun l => _detect_general_title l = false) lines ->
  forall st n,
    lines_to_insert (scan_loop st n lines) = lines_to_insert st.
Proof.
  induction 1 as [|l ls Hl _ IH]; intros st n; simpl; [reflexivity|].
  rewrite IH. now apply scan_step_no_title.
Qed.

(** ** What the scan keeps true of its plan *)

Lemma sorted_snoc (l : list nat) (n : nat) :
  StronglySorted lt l -> Forall (fun i => i < n) l ->
  StronglySorted lt (l ++ [n]).
Proof.
  induction 1 as [|a l Hs IH Ha]; intros Hl; simpl.
  - constructor; constructor.
  - inversion Hl; subst. constructor; [now apply IH|].
    apply Forall_app; split; [assumption|]. now constructor.
Qed.

Lemma plan_entry_ok_grow (page : list string) (line : string) (i : nat) :
  plan_entry_ok page i -> plan_entry_ok (page ++ [line]) i.
Proof.
  intros (H1 & H2 & l & Hn & Ht). repeat split; [assumption| |].
  - rewrite length_app; simpl; lia.
  - exists l. split; [|assumption]. now rewrite nth_error_app1.
Qed.

Lemma scan_inv_step (page : list string) (st : scan_state) (line : string) :
  scan_inv page st ->
  scan_inv (page ++ [line]) (scan_step st (List.length page) line).
Proof.
  intros (Hs & Hf & Hin).
  assert (Hf' : Forall (plan_entry_ok (page ++ [line])) (lines_to_insert st)).
  { eapply Forall_impl; [|exact Hf]. intros; now apply plan_entry_ok_grow. }
  assert (Hlen : 1 <= List.length (page ++ [line])).
  { rewrite length_app; simpl; lia. }
  assert (Hlt : Forall (fun i => i < List.length page) (lines_to_insert st)).
  { eapply Forall_impl; [|exact Hf]. intros i (_ & H & _); exact H. }
  unfold scan_step.
  destruct (in_doe_header st) eqn:Ein; simpl.
  - destruct (_detect_general_title line) eqn:Et.
    + assert (Hnew : Forall (plan_entry_ok (page ++ [line]))
                            (lines_to_insert st ++ [List.length page])).
      { apply Forall_app; split; [assumption|]. constructor; [|constructor].
        repeat split.
        - now apply Hin.
        - rewrite length_app; simpl; lia.
        - exists line. split; [|assumption].
          rewrite nth_error_app2, Nat.sub_diag by lia. reflexivity. }
      destruct (this_section_has_content st), (_detect_doe_header line);
        unfold scan_inv; simpl; repeat split; auto using sorted_snoc.
    + destruct (0 <? _); unfold scan_inv; simpl; repeat split; auto.
  - destruct (_detect_doe_header line); unfold scan_inv; simpl;
      repeat split; auto; rewrite ?Ein; intros; discriminate.
Qed.

Lemma scan_inv_holds (page : list string) : scan_inv page (scan page).
Proof.
  induction page as [|line page IH] using rev_ind.
  - repeat split; simpl; try constructor. intros; discriminate.
  - rewrite scan_snoc. now apply scan_inv_step.
Qed.

(** ** The backtracking matcher *)

Section Matcher.
Context {A : Type}.
Variable p : ascii -> bool.

(** What a greedy run hands to its continuation is a split of the
    subject whose first part lies in the class. *)
Lemma greedy_sound (s : string) :
  forall (k : string -> string -> option A) (r : A),
    Re.greedy p s k = Some r ->
    exists taken rest,
      s = (taken ++ rest)%string /\ all_chars p taken = true
      /\ k taken rest = Some r.
Proof.
  induction s as [|c s IH]; intros k r H; simpl in H.
  - exists EmptyString, EmptyString. auto.
  - destruct (p c) eqn:Hc.
    + destruct (Re.greedy p s _) as [r'|] eqn:Hg.
      * inversion H; subst r'. apply IH in Hg.
        destruct Hg as (t & rest & -> & Ht & Hk).
        exists (String c t), rest. simpl. rewrite Hc, Ht. auto.
      * exists EmptyString, (String c s). auto.
    + exists EmptyString, (String c s). auto.
Qed.

Lemma greedy_fallback (s : string) (k : string -> string -> option A) :
  k EmptyString s <> None -> Re.greedy p s k <> None.
Proof.
  destruct s as [|c s]; simpl; [auto|]. intros H.
  destruct (p c); [|assumption].
  destruct (Re.greedy p s _); [discriminate | assumption].
Qed.

(** Backtracking finds every split the continuation accepts. *)
Lemma greedy_complete (taken rest : string) :
  forall (k : string -> string -> option A),
    all_chars p taken = true ->
    k taken rest <> None ->
    Re.greedy p (taken ++ rest) k <> None.
Proof.
  induction taken as [|c t IH]; intros k Hall Hk; simpl.
  - now apply greedy_fallback.
  - simpl in Hall. apply andb_true_iff in Hall as [Hc Ht]. rewrite Hc.
    specialize (IH (fun taken rest => k (String c taken) rest) Ht Hk).
    destruct (Re.greedy p (t ++ rest) _); [discriminate | contradiction].
Qed.

Lemma quantified_sound (q : Re.quant) (s : string)
      (k : string -> string -> option A) (r : A) :
  Re.quantified p q s k = Some r ->
  exists taken rest,
    s = (taken ++ rest)%string /\ all_chars p taken = true
    /\ quant_fits q (String.length taken) /\ k taken rest = Some r.
Proof.
  destruct q; simpl; intros H.
  - destruct s as [|c s]; [discriminate|].
    destruct (p c) eqn:Hc; [|discriminate].
    exists (String c EmptyString), s. simpl. rewrite Hc. auto.
  - destruct s as [|c s].
    + exists EmptyString, EmptyString. simpl. auto.
    + destruct (p c) eqn:Hc.
      * destruct (k (String c EmptyString) s) as [r'|] eqn:Hk.
        -- inversion H; subst r'.
           exists (String c EmptyString), s. simpl. rewrite Hc. auto.
        -- exists EmptyString, (String c s). simpl. auto.
      * exists EmptyString, (String c s). simpl. auto.
  - apply greedy_sound in H. destruct H as (t & rest & Hs & Ht & Hk).
    exists t, rest. simpl. auto.
  - destruct s as [|c s]; [discriminate|].
    destruct (p c) eqn:Hc; [|discriminate].
    apply greedy_sound in H. destruct H as (t & rest & -> & Ht & Hk).
    exists (String c t), rest. simpl. rewrite Hc, Ht.
    repeat split; auto. lia.
Qed.

Lemma quantified_complete (q : Re.quant) (taken rest : string)
      (k : string -> string -> option A) :
  all_chars p taken = true ->
  quant_fits q (String.length taken) ->
  k taken rest <> None ->
  Re.quantified p q (taken ++ rest) k <> None.
Proof.
  intros Hall Hfit Hk. destruct q; simpl in *.
  - destruct taken as [|c [|c' t]]; try discriminate.
    simpl in *. apply andb_true_iff in Hall as [-> _]. assumption.
  - destruct taken as [|c [|c' t]]; simpl in *; try lia.
    + destruct rest as [|c s]; [assumption|].
      destruct (p c); [|assumption].
      destruct (k (String c EmptyString) s); [discriminate | assumption].
    + apply andb_true_iff in Hall as [-> _].
      destruct (k (String c EmptyString) rest);
        [discriminate | contradiction].
  - now apply greedy_complete.
  - destruct taken as [|c t]; simpl in *; [lia|].
    apply andb_true_iff in Hall as [-> Ht].
    now apply (greedy_complete t rest (fun t r => k (String c t) r)).
Qed.
End Matcher.

(** ** The title pattern *)

Lemma all_eq_sign_equals (s : string) :
  all_chars is_eq_sign s = true -> s = equals (String.length s).
Proof.
  induction s as [|c s IH]; simpl; intros H; [reflexivity|].
  apply andb_true_iff in H as [Hc Hs].
  apply Ascii.eqb_eq in Hc. subst c. unfold equals in *; simpl.
  now rewrite <- IH.
Qed.

Lemma equals_all_eq_sign (n : nat) : all_chars is_eq_sign (equals n) = true.
Proof.
  unfold equals. induction n as [|n IH]; simpl; [reflexivity | exact IH].
Qed.

Lemma equals_length (n : nat) : String.length (equals n) = n.
Proof.
  unfold equals. induction n as [|n IH]; simpl; [reflexivity | now rewrite IH].
Qed.

Lemma at_end_cases (s : string) :
  Re.at_end s = true ->
  s = EmptyString \/ s = String PyStr.newline EmptyString.
Proof.
  destruct s as [|c [|c' s]]; simpl; intros H; auto; [|discriminate].
  apply Ascii.eqb_eq in H. subst c. auto.
Qed.

(** [^] lets the pattern match at the start of the subject only. *)
Lemma title_search_from_later (subject s : string) (pos : nat) :
  Re.search_from title_search subject (S pos) s = None.
Proof.
  revert pos; induction s as [|c s IH]; intros pos; simpl; auto.
Qed.

Lemma detect_general_title_match_here (line : string) :
  _detect_general_title line = true
  <-> Re.match_here title_search 0 line [] <> None.
Proof.
  unfold _detect_general_title, Re.search.
  destruct line as [|c s]; unfold Re.search_from; fold Re.search_from.
  - destruct (Re.match_here title_search 0 EmptyString []) as [[e gs]|];
      split; congruence.
  - rewrite title_search_from_later.
    destruct (Re.match_here title_search 0 (String c s) []) as [[e gs]|];
      split; congruence.
Qed.

Lemma title_match_form (line : string) (r : nat * list string) :
  Re.match_here title_search 0 line [] = Some r -> title_form line.
Proof.
  unfold title_search. cbn [Re.match_here Nat.eqb]. intros H.
  apply quantified_sound in H.
  destruct H as (t1 & r1 & -> & Ht1 & Hf1 & H).
  apply quantified_sound in H.
  destruct H as (t2 & r2 & -> & Ht2 & _ & H).
  apply quantified_sound in H.
  destruct H as (t3 & r3 & -> & Ht3 & Hf3 & H).
  apply quantified_sound in H.
  destruct H as (t4 & r4 & -> & Ht4 & Hf4 & H).
  destruct (Re.at_end r4) eqn:He; [|discriminate].
  apply all_eq_sign_equals in Ht1, Ht3. simpl in Hf1, Hf3, Hf4.
  destruct (String.length t1) as [|a]; [lia|].
  destruct (String.length t3) as [|b]; [lia|].
  exists a, b, t2,
    (match t4 with EmptyString => false | _ => true end),
    (match r4 with EmptyString => false | _ => true end).
  split; [|exact Ht2]. rewrite Ht1, Ht3. do 3 f_equal.
  apply at_end_cases in He.
  destruct t4 as [|c [|c' t4]]; simpl in *; try lia.
  - destruct He; subst; reflexivity.
  - apply andb_true_iff in Ht4 as [Hc _]. apply Ascii.eqb_eq in Hc. subst c.
    destruct He; subst; reflexivity.
Qed.

Lemma title_form_match (line : string) :
  title_form line -> Re.match_here title_search 0 line [] <> None.
Proof.
  intros (a & b & text & blank & nl & -> & Htext).
  unfold title_search. cbn [Re.match_here Nat.eqb].
  apply quantified_complete;
    [apply equals_all_eq_sign | simpl; rewrite equals_length; lia |].
  apply quantified_complete; [exact Htext | exact I |].
  apply quantified_complete;
    [apply equals_all_eq_sign | simpl; rewrite equals_length; lia |].
  apply quantified_complete.
  - destruct blank; reflexivity.
  - destruct blank; simpl; lia.
  - destruct nl; simpl; discriminate.
Qed.

(** A title begins with [=]. *)
Lemma title_starts_with_equals (line : string) :
  _detect_general_title line = true ->
  exists rest, line = String "="%char rest.
Proof.
  intros H. apply detect_general_title_match_here in H.
  destruct (Re.match_here title_search 0 line []) as [r|] eqn:Hm;
    [|contradiction].
  apply title_match_form in Hm.
  destruct Hm as (a & b & text & blank & nl & -> & _).
  simpl. eauto.
Qed.

Lemma rstrip_keeps_head (c : ascii) (s : string) :
  PyStr.isspace c = false -> PyStr.rstrip (String c s) <> EmptyString.
Proof.
  intros Hc. simpl. destruct (PyStr.rstrip s); [rewrite Hc|]; discriminate.
Qed.

(** A line that strips to nothing is not a title. *)
Lemma blank_line_not_title (line : string) :
  PyStr.strip line = EmptyString -> _detect_general_title line = false.
Proof.
  intros Hs. destruct (_detect_general_title line) eqn:Ht; [|reflexivity].
  apply title_starts_with_equals in Ht as [rest ->].
  exfalso. revert Hs. unfold PyStr.strip.
  change (PyStr.lstrip (String "="%char rest)) with (String "="%char rest).
  now apply rstrip_keeps_head.
Qed.

(** ** Section state of the scan *)

(** C1 (the code does not do what the claim says). The loop never clears
    [in_doe_header]: after the header of an empty DOE section, a header
    that is not a DOE header leaves the scan inside the section, and the
    next header is recorded as an insertion point as well. On the page
    [== Topic at DOE ==], [== See Also ==], [== Other ==] the plan is
    [1; 2], where leaving the section at [== See Also ==] would give [1]. *)
Theorem plain_header_keeps_section_state :
  insertion_points ["== Topic at DOE =="; "== See Also =="; "== Other =="]
  = [1; 2]
  /\ _detect_doe_header "== See Also ==" = false
  /\ in_doe_header (scan ["== Topic at DOE =="; "== See Also =="]) = true
  /\ (forall st n line,
         in_doe_header st = true ->
         in_doe_header (scan_step st n line) = true).
Proof.
  repeat split; try reflexivity. apply scan_step_stays_in.
Qed.

(** ** The name of a header *)

(** C2 (the code does not do what the claim says). The name is cut out of
    the whole match, the blank the pattern allows after the closing [=]
    included, so for [== Topic at DOE == ] the cut leaves one [=] in the
    name: the name read is [topic at doe =] and the line, a title for
    [_detect_general_title], is not a DOE header, while the same line
    without the blank is one. *)
Theorem doe_header_with_trailing_blank :
  _detect_general_title "== Topic at DOE == " = true
  /\ option_map true_name (Re.search title_search "== Topic at DOE == ")
     = Some "topic at doe ="
  /\ _detect_doe_header "== Topic at DOE == " = false
  /\ _detect_doe_header "== Topic at DOE ==" = true.
Proof. repeat split; reflexivity. Qed.

(** ** The title pattern and the specification's title form *)

(** C3, the claim fails: a header followed by two blanks, or by a tab, has
    the form the claim describes and does not match the pattern. *)
Lemma title_form_spec_not_matched :
  title_form_spec "== A ==  "
  /\ _detect_general_title "== A ==  " = false
  /\ title_form_spec ("== A ==" ++ String (ascii_of_nat 9) "")%string
  /\ _detect_general_title ("== A ==" ++ String (ascii_of_nat 9) "")%string
     = false.
Proof.
  repeat split.
  - exists 1, 1, " A ", "  ". repeat split.
  - exists 1, 1, " A ", (String (ascii_of_nat 9) ""). repeat split.
Qed.

(** C3, as amended: a line matches the title pattern exactly when it is a
    run of one or more [=], text without [=], a run of one or more [=],
    then at most one blank and at most one final newline, and nothing
    else. *)
Theorem detect_general_title_iff_form (line : string) :
  _detect_general_title line = true <-> title_form line.
Proof.
  rewrite detect_general_title_match_here. split.
  - intros H.
    destruct (Re.match_here title_search 0 line []) as [r|] eqn:Hm;
      [|contradiction].
    now apply title_match_form in Hm.
  - apply title_form_match.
Qed.

(** ** Applying the insertion plan *)

Lemma list_insert_length {A : Type} (i : nat) (x : A) (l : list A) :
  List.length (PyStr.list_insert i x l) = S (List.length l).
Proof.
  unfold PyStr.list_insert. rewrite length_app. simpl.
  rewrite Nat.add_succ_r, <- length_app, firstn_skipn. reflexivity.
Qed.

Lemma insert_templates_rereading (plan : list nat) :
  forall (k n : nat) (current : list string),
    List.length current = n + k ->
    insert_templates plan k current = insert_rereading n plan current.
Proof.
  induction plan as [|idx plan IH]; intros k n current Hlen; simpl;
    [reflexivity|].
  replace (List.length current - n) with k by lia.
  apply IH. rewrite list_insert_length. lia.
Qed.

(** C5. Inserting at [idx + k] for the [k]-th index of the plan gives the
    same lines as inserting into a copy of the page, in the order of the
    plan, with the shift read off the current length each time. This holds
    for every plan and every page, so for every ascending plan, whose
    order is lowest index first; the plan [2; 5] on eight lines puts the
    template at positions 2 and 6. *)
Theorem apply_plan_refines_spec :
  (forall (plan : list nat) (page_lines : list string),
      apply_plan plan page_lines = apply_plan_spec plan page_lines)
  /\ (forall l0 l1 l2 l3 l4 l5 l6 l7 : string,
         apply_plan [2; 5] [l0; l1; l2; l3; l4; l5; l6; l7]
         = [l0; l1; TEMPLATE_STR; l2; l3; l4; TEMPLATE_STR; l5; l6; l7]).
Proof.
  split.
  - intros plan page_lines. unfold apply_plan, apply_plan_spec.
    apply insert_templates_rereading. lia.
  - reflexivity.
Qed.

(** C6. On [== Topic at DOE ==], an empty line, [== See Also ==] the scan
    reports the one insertion point 2, the index of [== See Also ==], and
    applying it puts the template just before that line. *)
Theorem end_to_end_example :
  let page_lines := ["== Topic at DOE =="; ""; "== See Also =="] in
  insertion_points page_lines = [2]
  /\ nth_error page_lines 2 = Some "== See Also =="
  /\ apply_plan (insertion_points page_lines) page_lines
     = ["== Topic at DOE =="; ""; "{{DOE content needed}}"; "== See Also =="].
Proof. repeat split. Qed.

(** ** Empty sections *)

Lemma scan_step_doe_header (st : scan_state) (n : nat) (line : string) :
  _detect_doe_header line = true ->
  in_doe_header (scan_step st n line) = true
  /\ this_section_has_content (scan_step st n line) = false.
Proof.
  intros Hd. unfold scan_step.
  rewrite Hd, (doe_header_is_title _ Hd).
  destruct (in_doe_header st); simpl; auto.
Qed.

Lemma scan_step_closing_header (st : scan_state) (n : nat) (line : string) :
  in_doe_header st = true ->
  this_section_has_content st = false ->
  _detect_general_title line = true ->
  in_doe_header (scan_step st n line) = true
  /\ this_section_has_content (scan_step st n line) = false
  /\ lines_to_insert (scan_step st n line) = lines_to_insert st ++ [n].
Proof.
  intros Hin Hc Ht. unfold scan_step. rewrite Hin, Hc, Ht; simpl.
  destruct (_detect_doe_header line); simpl; auto.
Qed.

Lemma scan_step_outside (st : scan_state) (n : nat) (line : string) :
  in_doe_header st = false ->
  lines_to_insert (scan_step st n line) = lines_to_insert st.
Proof.
  intros Hin. unfold scan_step. rewrite Hin; simpl.
  destruct (_detect_doe_header line); reflexivity.
Qed.

(** C7. A DOE header, at once another DOE header, then a third header and
    then lines that are no headers: the plan is the index of the second
    header and the index of the third, the headers that close the two
    empty sections. *)
Theorem two_empty_sections (h1 h2 h3 : string) (content : list string) :
  _detect_doe_header h1 = true ->
  _detect_doe_header h2 = true ->
  _detect_general_title h3 = true ->
  Forall (fun l => _detect_general_title l = false) content ->
  insertion_points (h1 :: h2 :: h3 :: content) = [1; 2].
Proof.
  intros H1 H2 H3 Hc. unfold insertion_points, scan. cbn [scan_loop].
  rewrite (scan_loop_no_title _ Hc).
  destruct (scan_step_doe_header scan_init 0 h1 H1) as [Ha Hb].
  destruct (scan_step_closing_header _ 1 h2 Ha Hb (doe_header_is_title _ H2))
    as (_ & _ & Hi2).
  destruct (scan_step_doe_header (scan_step scan_init 0 h1) 1 h2 H2)
    as [Ha2 Hb2].
  destruct (scan_step_closing_header _ 2 h3 Ha2 Hb2 H3) as (_ & _ & Hi3).
  rewrite Hi3, Hi2.
  rewrite (scan_step_outside scan_init 0 h1) by reflexivity. reflexivity.
Qed.

Lemma two_empty_sections_witness :
  insertion_points
    ["== Topic at DOE =="; "== DOE Relevance =="; "== See Also ==";
     "Some text."; ""]
  = [1; 2].
Proof.
  apply (two_empty_sections "== Topic at DOE ==" "== DOE Relevance =="
                            "== See Also ==" ["Some text."; ""]).
  - reflexivity.
  - reflexivity.
  - reflexivity.
  - repeat constructor.
Defined.

Lemma scan_step_blank (st : scan_state) (n : nat) (line : string) :
  in_doe_header st = true ->
  PyStr.strip line = EmptyString ->
  scan_step st n line = st.
Proof.
  intros Hin Hs. unfold scan_step.
  rewrite Hin, (blank_line_not_title _ Hs), Hs. reflexivity.
Qed.

Lemma scan_loop_blank (lines : list string) :
  Forall (fun l => PyStr.strip l = EmptyString) lines ->
  forall st n, in_doe_header st = true -> scan_loop st n lines = st.
Proof.
  induction 1 as [|l ls Hl _ IH]; intros st n Hin; simpl; [reflexivity|].
  rewrite (scan_step_blank _ _ _ Hin Hl). now apply IH.
Qed.

(** C8. A page that ends in a DOE header followed by blank lines only:
    the scan ends inside the section with no content seen, its plan is the
    plan it had at that header, and no entry of the plan lies after the
    header. The end of the page closes nothing. *)
Theorem trailing_empty_section_not_closed
        (pre : list string) (header : string) (tail : list string) :
  _detect_doe_header header = true ->
  Forall (fun l => PyStr.strip l = EmptyString) tail ->
  let st := scan (pre ++ header :: tail) in
  in_doe_header st = true
  /\ this_section_has_content st = false
  /\ lines_to_insert st = lines_to_insert (scan (pre ++ [header]))
  /\ Forall (fun i => i <= List.length pre) (lines_to_insert st).
Proof.
  intros Hd Hb st.
  assert (Est : st = scan (pre ++ [header])).
  { subst st. unfold scan.
    change (header :: tail) with ([header] ++ tail).
    rewrite app_assoc, scan_loop_app.
    apply scan_loop_blank; [assumption|].
    fold (scan (pre ++ [header])). rewrite scan_snoc.
    now apply scan_step_doe_header. }
  rewrite Est, scan_snoc.
  destruct (scan_step_doe_header (scan pre) (List.length pre) header Hd)
    as [Ha Hc].
  repeat split; try assumption.
  rewrite <- scan_snoc.
  destruct (scan_inv_holds (pre ++ [header])) as (_ & Hf & _).
  eapply Forall_impl; [|exact Hf].
  intros i (_ & Hi & _). rewrite length_app in Hi. simpl in Hi. lia.
Qed.

Lemma trailing_empty_section_not_closed_witness :
  let st := scan (["Intro."; "== History =="; "text"]
                    ++ "== DOE Relevance ==" :: [""; "  "]) in
  in_doe_header st = true
  /\ this_section_has_content st = false
  /\ lines_to_insert st
     = lines_to_insert
         (scan (["Intro."; "== History =="; "text"] ++ ["== DOE Relevance =="]))
  /\ Forall (fun i => i <= List.length ["Intro."; "== History =="; "text"])
            (lines_to_insert st).
Proof.
  apply (trailing_empty_section_not_closed
           ["Intro."; "== History =="; "text"] "== DOE Relevance =="
           [""; "  "]).
  - reflexivity.
  - repeat constructor.
Defined.

(** ** The plan of a page *)

(** C10. The plan of every page is strictly increasing, and each of its
    entries is at least 1 and the index of a line of the page that matches
    the title pattern. *)
Theorem insertion_points_sorted_titles (page_lines : list string) :
  StronglySorted lt (insertion_points page_lines)
  /\ Forall (fun i =>
               1 <= i
               /\ exists line, nth_error page_lines i = Some line
                               /\ _detect_general_title line = true)
            (insertion_points page_lines).
Proof.
  destruct (scan_inv_holds page_lines) as (Hs & Hf & _).
  split; [exact Hs|].
  eapply Forall_impl; [|exact Hf].
  intros i (H1 & _ & H3). auto.
Qed.

(** ** Writing a page back *)

Lemma snoc_not_self {A : Type} (l : list A) (x : A) : l ++ [x] <> l.
Proof.
  intros H. apply (f_equal (@List.length A)) in H.
  rewrite length_app in H. simpl in H. lia.
Qed.

(** C9. [main_function] saves the page, with the template lines inserted
    and the fixed comment, when the plan of the page is not empty; when it
    is empty the wiki is left as it was, page text and saves alike. The
    saves grow exactly when the plan is not empty. *)
Theorem save_iff_insertion_point (w : wiki) (page_title : string) :
  let page_lines := _get_page_text w page_title in
  let plan := insertion_points page_lines in
  (plan <> [] ->
   main_function w page_title
   = save_page w page_title
               (PyStr.join_lines (apply_plan plan page_lines))
               "Inserted the DOE content needed template.")
  /\ (plan = [] -> main_function w page_title = w)
  /\ (saves (main_function w page_title) = saves w <-> plan = []).
Proof.
  intros page_lines plan. unfold main_function.
  fold page_lines. fold plan.
  destruct plan as [|i plan'] eqn:Hp.
  - repeat split; auto. congruence.
  - repeat split; try discriminate; auto.
    simpl. intros H. exfalso. exact (snoc_not_self _ _ H).
Qed.

(** ** The bookmark *)

Lemma last_cons_default {A : Type} (l : list A) :
  forall a d d', last (a :: l) d = last (a :: l) d'.
Proof.
  induction l as [|b l IH]; intros a d d'; [reflexivity|].
  change (last (b :: l) d = last (b :: l) d'). apply IH.
Qed.

Lemma run_pages_last (pages : list string) :
  forall (w : wiki) (last_page_seen : string),
    snd (run_pages pages w last_page_seen) = last pages last_page_seen.
Proof.
  induction pages as [|t pages IH]; intros w l; simpl; [reflexivity|].
  rewrite IH. destruct pages as [|s pages]; [reflexivity|].
  apply last_cons_default.
Qed.

Lemma page_text_saved (w : wiki) (title text comment : string) :
  page_text (save_page w title text comment) title = text.
Proof. simpl. now rewrite String.eqb_refl. Qed.

(** C4. After a run the bookmark page holds the empty string when the
    listing answered fewer titles than the batch size, none included, and
    otherwise the last title of the listing, the last page the run
    worked on. *)
Theorem run_sets_bookmark
        (reference_page_title : string)
        (allpages : wiki -> string -> nat -> list string) (w : wiki) :
  let pages :=
    pages_from allpages w (get_page_start reference_page_title w) in
  let w' := run reference_page_title allpages w in
  (List.length pages < PAGES_TO_GO_THROUGH ->
   page_text w' reference_page_title = EmptyString)
  /\ (PAGES_TO_GO_THROUGH <= List.length pages ->
      exists before last_title,
        pages = before ++ [last_title]
        /\ snd (run_pages pages w EmptyString) = last_title
        /\ page_text w' reference_page_title = last_title).
Proof.
  intros pages w'. subst w'. unfold run, set_page_start. fold pages.
  pose proof (run_pages_last pages w EmptyString) as Hlast.
  destruct (run_pages pages w EmptyString) as [w1 seen]. simpl in Hlast.
  split; intros Hlen.
  - apply Nat.ltb_lt in Hlen. rewrite Hlen. apply page_text_saved.
  - assert (Hge : (List.length pages <? PAGES_TO_GO_THROUGH) = false)
      by now apply Nat.ltb_ge.
    rewrite Hge, page_text_saved.
    destruct (exists_last (l := pages)) as (before & t & Hp).
    { intros E. rewrite E in Hlen. unfold PAGES_TO_GO_THROUGH in Hlen.
      simpl in Hlen. lia. }
    exists before, t. rewrite Hlast, Hp, last_last. auto.
Qed.


(** * Further properties of the code *)

(** ** Lines of a page: [split] and [join] *)

Lemma split_lines_cons (s : string) :
  exists first rest, PyStr.split_lines s = first :: rest.
Proof.
  induction s as [|c s (h & t & IH)]; simpl; [eauto|].
  destruct (Ascii.eqb c PyStr.newline); [eauto|]. rewrite IH. eauto.
Qed.

Lemma split_lines_no_newline_line (s : string) :
  Forall (fun l => no_newline l = true) (PyStr.split_lines s).
Proof.
  induction s as [|c s IH]; simpl.
  - repeat constructor.
  - destruct (Ascii.eqb c PyStr.newline) eqn:Hc.
    + constructor; [reflexivity | exact IH].
    + destruct (PyStr.split_lines s) as [|h t]; inversion IH; subst.
      * repeat constructor. unfold no_newline; simpl. now rewrite Hc.
      * constructor; [|assumption].
        unfold no_newline in *; simpl. now rewrite Hc.
Qed.

Lemma split_lines_length (s : string) :
  List.length (PyStr.split_lines s) = S (count_newlines s).
Proof.
  induction s as [|c s IH]; simpl; [reflexivity|].
  destruct (Ascii.eqb c PyStr.newline); simpl.
  - now rewrite IH.
  - destruct (PyStr.split_lines s); simpl in *; [discriminate | exact IH].
Qed.

(** X1. [s.split('\n')] is never empty: it has one line more than [s]
    has newlines, and none of its lines holds a newline. So [[0]] in
    [get_page_start] is always there, and it is the text up to the first
    newline. *)
Theorem split_lines_shape (s : string) :
  List.length (PyStr.split_lines s) = S (count_newlines s)
  /\ Forall (fun l => no_newline l = true) (PyStr.split_lines s)
  /\ exists first rest,
       PyStr.split_lines s = first :: rest
       /\ hd EmptyString (PyStr.split_lines s) = first.
Proof.
  split; [apply split_lines_length|].
  split; [apply split_lines_no_newline_line|].
  destruct (split_lines_cons s) as (h & t & E).
  exists h, t. rewrite E. auto.
Qed.

Lemma join_split_lines (s : string) :
  PyStr.join_lines (PyStr.split_lines s) = s.
Proof.
  unfold PyStr.join_lines.
  induction s as [|c s IH]; simpl; [reflexivity|].
  destruct (split_lines_cons s) as (h & t & E). rewrite E in IH |- *.
  destruct (Ascii.eqb c PyStr.newline) eqn:Hc.
  - apply Ascii.eqb_eq in Hc. subst c.
    change (String PyStr.newline (String.concat
              (String PyStr.newline EmptyString) (h :: t))
            = String PyStr.newline s).
    now rewrite IH.
  - destruct t as [|h' t]; simpl in *.
    + now rewrite IH.
    + now rewrite IH.
Qed.

Lemma split_lines_single (x : string) :
  no_newline x = true -> PyStr.split_lines x = [x].
Proof.
  unfold no_newline.
  induction x as [|c x IH]; simpl; intros H; [reflexivity|].
  apply andb_true_iff in H as [Hc Hx]. apply negb_true_iff in Hc.
  rewrite Hc, (IH Hx). reflexivity.
Qed.

Lemma split_lines_app (x y : string) :
  no_newline x = true ->
  PyStr.split_lines (x ++ String PyStr.newline y)
  = x :: PyStr.split_lines y.
Proof.
  unfold no_newline.
  induction x as [|c x IH]; simpl; intros H.
  - reflexivity.
  - apply andb_true_iff in H as [Hc Hx]. apply negb_true_iff in Hc.
    rewrite Hc, (IH Hx). reflexivity.
Qed.

Lemma split_join_lines (lines : list string) :
  lines <> [] ->
  Forall (fun l => no_newline l = true) lines ->
  PyStr.split_lines (PyStr.join_lines lines) = lines.
Proof.
  unfold PyStr.join_lines.
  induction lines as [|x lines IH]; intros Hne Hall; [contradiction|].
  inversion Hall as [|? ? Hx Hrest]; subst.
  destruct lines as [|y lines].
  - simpl. now apply split_lines_single.
  - change (PyStr.split_lines
              (x ++ String PyStr.newline
                 (String.concat (String PyStr.newline EmptyString)
                                (y :: lines)))
            = x :: y :: lines).
    rewrite (split_lines_app _ _ Hx), IH; [reflexivity | discriminate |
                                           assumption].
Qed.

(** ** Where the templates land *)

Lemma list_insert_app_right {A : Type} (pre l : list A) (d : nat) (x : A) :
  PyStr.list_insert (List.length pre + d) x (pre ++ l)
  = pre ++ PyStr.list_insert d x l.
Proof.
  unfold PyStr.list_insert.
  rewrite firstn_app, skipn_app, firstn_all2, skipn_all2 by lia.
  replace (List.length pre + d - List.length pre) with d by lia.
  simpl. now rewrite <- app_assoc.
Qed.

Lemma list_insert_app_left {A : Type} (l post : list A) (i : nat) (x : A) :
  i <= List.length l ->
  PyStr.list_insert i x (l ++ post) = PyStr.list_insert i x l ++ post.
Proof.
  intros Hi. unfold PyStr.list_insert.
  rewrite firstn_app, skipn_app.
  replace (i - List.length l) with 0 by lia. simpl.
  rewrite app_nil_r, <- app_assoc. reflexivity.
Qed.

Lemma insert_templates_length (plan : list nat) :
  forall k lines,
    List.length (insert_templates plan k lines)
    = List.length lines + List.length plan.
Proof.
  induction plan as [|i plan IH]; intros k lines; simpl; [lia|].
  rewrite IH, list_insert_length. lia.
Qed.

Lemma insert_templates_app (p1 p2 : list nat) :
  forall k lines,
    insert_templates (p1 ++ p2) k lines
    = insert_templates p2 (k + List.length p1) (insert_templates p1 k lines).
Proof.
  induction p1 as [|i p1 IH]; intros k lines; simpl.
  - now rewrite Nat.add_0_r.
  - rewrite IH. f_equal. lia.
Qed.

Lemma insert_templates_app_left (plan : list nat) :
  forall k lines post,
    Forall (fun i => i + k <= List.length lines) plan ->
    insert_templates plan k (lines ++ post)
    = insert_templates plan k lines ++ post.
Proof.
  induction plan as [|i plan IH]; intros k lines post H; simpl;
    [reflexivity|].
  inversion H as [|? ? Hi Hrest]; subst.
  rewrite list_insert_app_left by exact Hi.
  apply IH. eapply Forall_impl; [|exact Hrest].
  intros j Hj. rewrite list_insert_length. simpl in Hj. lia.
Qed.

Lemma with_templates_out_of_range (plan : list nat) (lines : list string) :
  forall n,
    (forall i, In i plan -> i < n \/ n + List.length lines <= i) ->
    with_templates plan n lines = lines.
Proof.
  induction lines as [|l lines IH]; intros n H; simpl; [reflexivity|].
  destruct (existsb (Nat.eqb n) plan) eqn:E.
  - apply existsb_exists in E as (i & Hi & Hn).
    apply Nat.eqb_eq in Hn. subst i.
    destruct (H n Hi) as [H'|H']; simpl in H'; lia.
  - simpl. f_equal. apply IH. intros i Hi.
    destruct (H i Hi) as [H'|H']; simpl in H'; lia.
Qed.

Lemma with_templates_drop_earlier (i : nat) (plan : list nat)
      (lines : list string) :
  forall n, i < n ->
            with_templates (i :: plan) n lines = with_templates plan n lines.
Proof.
  induction lines as [|l lines IH]; intros n Hn; simpl; [reflexivity|].
  replace (n =? i) with false by (symmetry; apply Nat.eqb_neq; lia).
  simpl. rewrite IH by lia. reflexivity.
Qed.

Lemma existsb_eqb_above (n : nat) (plan : list nat) :
  Forall (fun j => n < j) plan -> existsb (Nat.eqb n) plan = false.
Proof.
  induction 1 as [|j plan Hj _ IH]; simpl; [reflexivity|].
  rewrite IH. replace (n =? j) with false; [reflexivity|].
  symmetry; apply Nat.eqb_neq; lia.
Qed.

Lemma with_templates_first (i : nat) (plan : list nat)
      (lines : list string) :
  Forall (fun j => i < j) plan ->
  forall n,
    n <= i -> i < n + List.length lines ->
    with_templates (i :: plan) n lines
    = firstn (i - n) lines
      ++ TEMPLATE_STR :: with_templates plan i (skipn (i - n) lines).
Proof.
  intros Hplan.
  induction lines as [|l lines IH]; intros n Hn Hi; simpl in Hi; [lia|].
  destruct (Nat.eq_dec n i) as [->|Hne].
  - rewrite Nat.sub_diag. simpl. rewrite Nat.eqb_refl. simpl.
    rewrite (existsb_eqb_above _ _ Hplan). simpl.
    rewrite with_templates_drop_earlier by lia. reflexivity.
  - replace (i - n) with (S (i - S n)) by lia.
    cbn [with_templates existsb firstn skipn].
    replace (n =? i) with false by (symmetry; apply Nat.eqb_neq; lia).
    rewrite (existsb_eqb_above n plan).
    + simpl. f_equal. apply IH; lia.
    + eapply Forall_impl; [|exact Hplan]. simpl. intros; lia.
Qed.

Lemma insert_templates_with_templates (plan : list nat) :
  forall (k n : nat) (pre lines : list string),
    StronglySorted lt plan ->
    Forall (fun i => n <= i /\ i < n + List.length lines) plan ->
    List.length pre = n + k ->
    insert_templates plan k (pre ++ lines)
    = pre ++ with_templates plan n lines.
Proof.
  induction plan as [|i plan IH]; intros k n pre lines Hs Hr Hlen.
  - simpl. rewrite with_templates_out_of_range; [reflexivity|].
    intros i [].
  - inversion Hs as [|? ? Hs' Hlt]; subst.
    inversion Hr as [|? ? [Hi1 Hi2] Hr']; subst.
    cbn [insert_templates].
    replace (i + k) with (List.length pre + (i - n)) by lia.
    rewrite list_insert_app_right. unfold PyStr.list_insert.
    rewrite (with_templates_first i plan lines Hlt n Hi1 Hi2).
    replace (pre ++ firstn (i - n) lines
                 ++ TEMPLATE_STR :: skipn (i - n) lines)
      with ((pre ++ firstn (i - n) lines ++ [TEMPLATE_STR])
              ++ skipn (i - n) lines)
      by (repeat rewrite <- app_assoc; reflexivity).
    rewrite (IH (S k) i); try assumption.
    + repeat rewrite <- app_assoc. reflexivity.
    + rewrite Forall_forall in *. intros j Hj.
      specialize (Hlt j Hj). destruct (Hr' j Hj) as [_ H2].
      rewrite length_skipn. lia.
    + rewrite !length_app, firstn_length_le by lia. simpl. lia.
Qed.

(** X2. For a strictly increasing plan of line numbers of the page, the
    insertion loop gives the page with one template directly above each
    planned line, every line kept and in its order. *)
Theorem apply_plan_places_templates
        (plan : list nat) (page_lines : list string) :
  StronglySorted lt plan ->
  Forall (fun i => i < List.length page_lines) plan ->
  apply_plan plan page_lines = with_templates plan 0 page_lines.
Proof.
  intros Hs Hr. unfold apply_plan.
  apply (insert_templates_with_templates plan 0 0 [] page_lines Hs);
    [|reflexivity].
  eapply Forall_impl; [|exact Hr]. simpl. intros; lia.
Qed.

Lemma apply_plan_places_templates_witness :
  apply_plan [1; 3] ["a"; "b"; "c"; "d"]
  = with_templates [1; 3] 0 ["a"; "b"; "c"; "d"].
Proof.
  apply (apply_plan_places_templates [1; 3] ["a"; "b"; "c"; "d"]).
  - repeat constructor.
  - repeat constructor.
Defined.

(** X3. Whatever the plan, the insertion loop adds one line per entry of
    the plan: an index past the end of the page appends. *)
Theorem apply_plan_length (plan : list nat) (page_lines : list string) :
  List.length (apply_plan plan page_lines)
  = List.length page_lines + List.length plan.
Proof. apply insert_templates_length. Qed.

(** ** Which lines the scan plans *)

Lemma snoc_eq_app_cons {A : Type} (page pre post : list A) (l x : A) :
  page ++ [l] = pre ++ x :: post ->
  (post = [] /\ pre = page /\ x = l)
  \/ exists post', post = post' ++ [l] /\ page = pre ++ x :: post'.
Proof.
  intros H. destruct post as [|y post] using rev_ind.
  - left. apply app_inj_tail in H as [H1 H2]. auto.
  - right. exists post.
    change (pre ++ x :: post ++ [y]) with (pre ++ (x :: post) ++ [y]) in H.
    rewrite app_assoc in H. apply app_inj_tail in H as [H1 H2].
    subst. split; reflexivity.
Qed.

Lemma open_empty_snoc (page : list string) (l : string) :
  open_empty (page ++ [l])
  <-> _detect_doe_header l = true
      \/ (open_empty page /\ no_content l = true).
Proof.
  split.
  - intros (before & header & between & E & Hd & Hb).
    apply snoc_eq_app_cons in E
      as [(-> & -> & ->) | (between' & -> & ->)].
    + now left.
    + right. apply Forall_app in Hb as [Hb Hl].
      inversion Hl; subst. split; [|assumption].
      exists before, header, between'. auto.
  - intros [Hd | [(before & header & between & -> & Hd & Hb) Hl]].
    + exists page, l, []. auto.
    + exists before, header, (between ++ [l]).
      rewrite <- app_assoc. simpl. repeat split; [assumption|].
      apply Forall_app. auto.
Qed.

Lemma closes_empty_section_snoc (page : list string) (l : string) (i : nat) :
  closes_empty_section (page ++ [l]) i
  <-> closes_empty_section page i
      \/ (i = List.length page /\ _detect_general_title l = true
          /\ open_empty page).
Proof.
  split.
  - intros (pre & line & post & E & Hi & Ht & Ho).
    apply snoc_eq_app_cons in E as [(-> & -> & ->) | (post' & -> & ->)].
    + right. auto.
    + left. exists pre, line, post'. auto.
  - intros [(pre & line & post & -> & Hi & Ht & Ho) | (-> & Ht & Ho)].
    + exists pre, line, (post ++ [l]). rewrite <- app_assoc. auto.
    + exists page, l, []. auto.
Qed.

Lemma closes_empty_section_bound (page : list string) (i : nat) :
  closes_empty_section page i -> i < List.length page.
Proof.
  intros (pre & line & post & -> & <- & _). rewrite length_app. simpl. lia.
Qed.

Lemma open_empty_has_doe_header (page : list string) :
  open_empty page ->
  Forall (fun l => _detect_doe_header l = false) page -> False.
Proof.
  intros (before & header & between & -> & Hd & _) H.
  apply Forall_app in H as [_ H]. inversion H; congruence.
Qed.

Lemma no_content_cases (l : string) :
  no_content l = true
  <-> _detect_general_title l = true
      \/ (0 <? String.length (PyStr.strip l)) = false.
Proof.
  unfold no_content. rewrite orb_true_iff.
  destruct (String.length (PyStr.strip l)) as [|n].
  - change (0 <? 0) with false. simpl. intuition.
  - change (0 <? S n) with true. simpl. intuition congruence.
Qed.

Lemma scan_meaning_step (page : list string) (st : scan_state) (l : string) :
  scan_meaning page st ->
  scan_meaning (page ++ [l]) (scan_step st (List.length page) l).
Proof.
  intros (Hout & Hopen & Hins).
  assert (Hfresh : ~ In (List.length page) (lines_to_insert st)).
  { intros H. apply Hins, closes_empty_section_bound in H. lia. }
  unfold scan_meaning, scan_step.
  setoid_rewrite closes_empty_section_snoc.
  rewrite open_empty_snoc, no_content_cases.
  destruct (in_doe_header st) eqn:Ein; simpl.
  - destruct (_detect_general_title l) eqn:Et.
    + destruct (this_section_has_content st) eqn:Ec,
               (_detect_doe_header l) eqn:Ed; simpl;
        (split; [intros; discriminate|]);
        (split; [intuition congruence|]);
        intros i; rewrite ?in_app_iff, Hins; simpl;
        intuition (try congruence; try lia).
    + assert (Ed : _detect_doe_header l = false).
      { destruct (_detect_doe_header l) eqn:Ed; [|reflexivity].
        apply doe_header_is_title in Ed. congruence. }
      rewrite Ed.
      destruct (0 <? String.length (PyStr.strip l)) eqn:Eb; simpl;
        rewrite ?Ein;
        (split; [intros; discriminate|]);
        (split; [intuition congruence|]);
        intros i; rewrite Hins; intuition (try congruence).
  - assert (Hno : ~ open_empty page).
    { intros H. exact (open_empty_has_doe_header _ H (Hout eq_refl)). }
    destruct (_detect_doe_header l) eqn:Ed; simpl; rewrite ?Ein.
    + split; [intros; discriminate|].
      split; [intuition congruence|].
      intros i; rewrite Hins; intuition.
    + split.
      { intros _. apply Forall_app. split; [auto|]. now constructor. }
      split; [intuition congruence|].
      intros i; rewrite Hins; intuition.
Qed.

Lemma scan_meaning_holds (page : list string) : scan_meaning page (scan page).
Proof.
  induction page as [|l page IH] using rev_ind.
  - unfold scan_meaning; simpl. split; [intros; constructor|]. split.
    + split; [intros [H _]; discriminate|].
      intros (before & header & between & E & _).
      destruct before; discriminate.
    + intros i. split; [intros []|].
      intros (pre & line & post & E & _). destruct pre; discriminate.
  - rewrite scan_snoc. now apply scan_meaning_step.
Qed.

(** X4. Line [i] is an insertion point exactly when it is a title and some
    DOE header stands before it with nothing but titles and lines that
    strip to nothing in between. The headers in between need not be DOE
    headers. *)
Theorem insertion_point_iff (page : list string) (i : nat) :
  In i (insertion_points page)
  <-> exists before header between line after,
        page = before ++ header :: between ++ line :: after
        /\ i = List.length before + 1 + List.length between
        /\ _detect_doe_header header = true
        /\ Forall (fun l => no_content l = true) between
        /\ _detect_general_title line = true.
Proof.
  destruct (scan_meaning_holds page) as (_ & _ & H).
  unfold insertion_points. rewrite H. split.
  - intros (pre & line & post & -> & <- & Ht
            & before & header & between & -> & Hd & Hb).
    exists before, header, between, line, post.
    rewrite <- app_assoc, length_app. simpl. repeat split; auto. lia.
  - intros (before & header & between & line & after & -> & -> & Hd & Hb & Ht).
    exists (before ++ header :: between), line, after.
    rewrite <- app_assoc, length_app. simpl. repeat split; auto; [lia|].
    exists before, header, between. auto.
Qed.

Lemma no_doe_header_no_plan (page : list string) :
  Forall (fun l => _detect_doe_header l = false) page ->
  insertion_points page = [].
Proof.
  intros Hno. destruct (scan_meaning_holds page) as (_ & _ & H).
  unfold insertion_points.
  destruct (lines_to_insert (scan page)) as [|i plan]; [reflexivity|].
  exfalso. destruct (proj1 (H i) (or_introl eq_refl))
    as (pre & line & post & -> & _ & _ & Ho).
  apply Forall_app in Hno as [Hpre _].
  exact (open_empty_has_doe_header _ Ho Hpre).
Qed.

(** X5. A page without a DOE header is left alone: [main_function] issues
    no save and changes no text. *)
Theorem page_without_doe_header_untouched (w : wiki) (page_title : string) :
  Forall (fun l => _detect_doe_header l = false)
         (_get_page_text w page_title) ->
  main_function w page_title = w.
Proof.
  intros H. unfold main_function.
  now rewrite (no_doe_header_no_plan _ H).
Qed.

Lemma page_without_doe_header_untouched_witness :
  let w := MkWiki (fun _ => PyStr.join_lines
                              ["== History =="; "== See Also =="; "text"])
                  [] in
  main_function w "Some page" = w.
Proof.
  apply (page_without_doe_header_untouched
           (MkWiki (fun _ => PyStr.join_lines
                               ["== History =="; "== See Also =="; "text"])
                   []) "Some page").
  repeat constructor.
Defined.

Lemma scan_step_plan_cases (st : scan_state) (n : nat) (l : string) :
  (lines_to_insert (scan_step st n l) = lines_to_insert st ++ [n]
   /\ in_doe_header st = true /\ this_section_has_content st = false
   /\ _detect_general_title l = true)
  \/ (lines_to_insert (scan_step st n l) = lines_to_insert st
      /\ ~ (in_doe_header st = true /\ this_section_has_content st = false
            /\ _detect_general_title l = true)).
Proof.
  unfold scan_step.
  destruct (in_doe_header st) eqn:Ein; simpl.
  - destruct (_detect_general_title l) eqn:Et.
    + destruct (this_section_has_content st) eqn:Ec; simpl.
      * right. destruct (_detect_doe_header l); simpl;
          (split; [reflexivity | intuition congruence]).
      * left. destruct (_detect_doe_header l); simpl; auto.
    + right. destruct (0 <? _); simpl;
        (split; [reflexivity | intuition congruence]).
  - right. destruct (_detect_doe_header l); simpl;
      (split; [reflexivity | intuition congruence]).
Qed.

Lemma scan_loop_extends (lines : list string) :
  forall st n,
  exists extra,
    lines_to_insert (scan_loop st n lines) = lines_to_insert st ++ extra
    /\ Forall (fun i => n <= i) extra.
Proof.
  induction lines as [|l lines IH]; intros st n; simpl.
  - exists []. now rewrite app_nil_r.
  - destruct (IH (scan_step st n l) (S n)) as (extra & E & Hx).
    assert (Hx' : Forall (fun i => n <= i) extra).
    { eapply Forall_impl; [|exact Hx]. simpl. intros; lia. }
    destruct (scan_step_plan_cases st n l) as [(E' & _) | (E' & _)];
      rewrite E' in E.
    + exists (n :: extra). rewrite E, <- app_assoc. simpl. auto.
    + exists extra. auto.
Qed.

(** X6. Reading more lines only adds to the plan: the plan of a page
    begins with the plan of each of its prefixes, and what follows are
    line numbers past the prefix. *)
Theorem plan_of_prefix_is_prefix (pre post : list string) :
  exists extra,
    insertion_points (pre ++ post) = insertion_points pre ++ extra
    /\ Forall (fun i => List.length pre <= i) extra.
Proof.
  unfold insertion_points, scan. rewrite scan_loop_app. simpl.
  apply scan_loop_extends.
Qed.

(** ** Running the scan on a page it has edited *)

Lemma template_not_title : _detect_general_title TEMPLATE_STR = false.
Proof. reflexivity. Qed.

Lemma template_has_content :
  (0 <? String.length (PyStr.strip TEMPLATE_STR)) = true.
Proof. reflexivity. Qed.

Lemma template_no_newline : no_newline TEMPLATE_STR = true.
Proof. reflexivity. Qed.

(** Inside a section a template line counts as content. *)
Lemma scan_step_template (st : scan_state) (n : nat) :
  in_doe_header st = true ->
  scan_step st n TEMPLATE_STR = MkScan true true (lines_to_insert st).
Proof.
  intros Hin. unfold scan_step.
  rewrite Hin, template_not_title, template_has_content. reflexivity.
Qed.

Lemma apply_plan_snoc_same (plan : list nat) (lines : list string)
      (l : string) :
  Forall (fun i => i < List.length lines) plan ->
  apply_plan plan (lines ++ [l]) = apply_plan plan lines ++ [l].
Proof.
  intros H. unfold apply_plan. apply insert_templates_app_left.
  eapply Forall_impl; [|exact H]. simpl. intros; lia.
Qed.

Lemma apply_plan_snoc_new (plan : list nat) (lines : list string)
      (l : string) :
  Forall (fun i => i < List.length lines) plan ->
  apply_plan (plan ++ [List.length lines]) (lines ++ [l])
  = apply_plan plan lines ++ [TEMPLATE_STR; l].
Proof.
  intros H. unfold apply_plan.
  rewrite insert_templates_app. fold (apply_plan plan (lines ++ [l])).
  rewrite (apply_plan_snoc_same _ _ _ H). simpl.
  replace (List.length lines + List.length plan)
    with (List.length (apply_plan plan lines) + 0)
    by (rewrite Nat.add_0_r; apply insert_templates_length).
  now rewrite list_insert_app_right.
Qed.

Lemma rescan_step_same (old new : scan_state) (n n2 : nat) (l : string) :
  in_doe_header new = in_doe_header old ->
  (this_section_has_content old = true ->
   this_section_has_content new = true) ->
  ~ (in_doe_header old = true /\ this_section_has_content old = false
     /\ _detect_general_title l = true) ->
  in_doe_header (scan_step new n2 l) = in_doe_header (scan_step old n l)
  /\ (this_section_has_content (scan_step old n l) = true ->
      this_section_has_content (scan_step new n2 l) = true)
  /\ lines_to_insert (scan_step new n2 l) = lines_to_insert new.
Proof.
  destruct old as [i h p], new as [i2 h2 p2]; simpl.
  intros -> Hh Hno. unfold scan_step; simpl.
  destruct i; simpl.
  - destruct (_detect_general_title l) eqn:Et.
    + destruct h; [|exfalso; auto].
      rewrite (Hh eq_refl); simpl.
      destruct (_detect_doe_header l); simpl; auto.
    + destruct (0 <? _); simpl; auto.
  - destruct (_detect_doe_header l); simpl; auto.
Qed.

Lemma rescan_step_new (old new : scan_state) (n n2 n3 : nat) (l : string) :
  in_doe_header new = in_doe_header old ->
  in_doe_header old = true ->
  this_section_has_content old = false ->
  _detect_general_title l = true ->
  let new' := scan_step (scan_step new n2 TEMPLATE_STR) n3 l in
  in_doe_header new' = in_doe_header (scan_step old n l)
  /\ (this_section_has_content (scan_step old n l) = true ->
      this_section_has_content new' = true)
  /\ lines_to_insert new' = lines_to_insert new.
Proof.
  intros Hin Ho Hc Ht new'. subst new'.
  rewrite scan_step_template by congruence.
  unfold scan_step. rewrite Ho, Hc, Ht. simpl.
  destruct (_detect_doe_header l); simpl; auto.
Qed.

Lemma scan_snoc2 (pre : list string) (a b : string) :
  scan (pre ++ [a; b])
  = scan_step (scan_step (scan pre) (List.length pre) a)
              (S (List.length pre)) b.
Proof.
  change (pre ++ [a; b]) with (pre ++ [a] ++ [b]).
  rewrite app_assoc, !scan_snoc, length_app. simpl.
  now rewrite Nat.add_1_r.
Qed.

Lemma rescan_invariant (lines : list string) :
  let old := scan lines in
  let new := scan (apply_plan (lines_to_insert old) lines) in
  in_doe_header new = in_doe_header old
  /\ (this_section_has_content old = true ->
      this_section_has_content new = true)
  /\ lines_to_insert new = [].
Proof.
  induction lines as [|l lines IH] using rev_ind.
  - simpl. auto.
  - simpl in IH. destruct IH as (Hin & Hc & Hnil). simpl.
    assert (Hr : Forall (fun i => i < List.length lines)
                        (lines_to_insert (scan lines))).
    { destruct (scan_inv_holds lines) as (_ & Hf & _).
      eapply Forall_impl; [|exact Hf]. intros i (_ & H & _). exact H. }
    rewrite scan_snoc.
    destruct (scan_step_plan_cases (scan lines) (List.length lines) l)
      as [(E & Ho & Hh & Ht) | (E & Hno)]; rewrite E.
    + rewrite (apply_plan_snoc_new _ _ _ Hr), scan_snoc2.
      destruct (rescan_step_new (scan lines) _ (List.length lines)
                  (List.length (apply_plan (lines_to_insert (scan lines))
                                           lines))
                  (S (List.length (apply_plan (lines_to_insert (scan lines))
                                              lines)))
                  l Hin Ho Hh Ht) as (H1 & H2 & H3).
      rewrite H3. auto.
    + rewrite (apply_plan_snoc_same _ _ _ Hr), scan_snoc.
      destruct (rescan_step_same (scan lines) _ (List.length lines)
                  (List.length (apply_plan (lines_to_insert (scan lines))
                                           lines))
                  l Hin Hc Hno) as (H1 & H2 & H3).
      rewrite H3. auto.
Qed.

(** X7. A page on which the plan has been applied has an empty plan: each
    template put in is content of the section above the header it was put
    before, so a second scan finds nothing to insert. *)
Theorem rescan_finds_nothing (page_lines : list string) :
  insertion_points (apply_plan (insertion_points page_lines) page_lines)
  = [].
Proof.
  unfold insertion_points.
  destruct (rescan_invariant page_lines) as (_ & _ & H). exact H.
Qed.

(** ** The page after [main_function] *)

Lemma list_insert_Forall {A : Type} (P : A -> Prop) (i : nat) (x : A)
      (l : list A) :
  P x -> Forall P l -> Forall P (PyStr.list_insert i x l).
Proof.
  intros Hx Hl. rewrite <- (firstn_skipn i l) in Hl.
  apply Forall_app in Hl as [H1 H2].
  unfold PyStr.list_insert. apply Forall_app. split; [assumption|].
  now constructor.
Qed.

Lemma insert_templates_no_newline (plan : list nat) :
  forall k lines,
    Forall (fun l => no_newline l = true) lines ->
    Forall (fun l => no_newline l = true) (insert_templates plan k lines).
Proof.
  induction plan as [|i plan IH]; intros k lines H; simpl; [assumption|].
  apply IH, list_insert_Forall; [exact template_no_newline | assumption].
Qed.

Lemma main_function_lines (w : wiki) (page_title : string) :
  _get_page_text (main_function w page_title) page_title
  = apply_plan (insertion_points (_get_page_text w page_title))
               (_get_page_text w page_title).
Proof.
  unfold main_function.
  destruct (insertion_points (_get_page_text w page_title))
    as [|i plan] eqn:Hp; [reflexivity|].
  unfold _get_page_text at 1. rewrite page_text_saved.
  apply split_join_lines.
  - intros E. apply (f_equal (@List.length string)) in E.
    unfold apply_plan in E. rewrite insert_templates_length in E.
    simpl in E. lia.
  - apply insert_templates_no_newline, split_lines_no_newline_line.
Qed.

(** X8. After [main_function] the lines of the page are the lines it
    read with the plan applied: joining the lines for the save and
    splitting the saved text loses nothing. *)
Theorem saved_page_reads_back (w : wiki) (page_title : string) :
  let page_lines := _get_page_text w page_title in
  _get_page_text (main_function w page_title) page_title
  = apply_plan (insertion_points page_lines) page_lines.
Proof. apply main_function_lines. Qed.

(** X9. [main_function] on a page it has just worked on does nothing:
    the bot does not insert the template a second time. *)
Theorem main_function_idempotent (w : wiki) (page_title : string) :
  main_function (main_function w page_title) page_title
  = main_function w page_title.
Proof.
  unfold main_function at 1. rewrite main_function_lines.
  unfold insertion_points at 1 2.
  destruct (rescan_invariant (_get_page_text w page_title)) as (_ & _ & H).
  simpl in H. unfold insertion_points. rewrite H. reflexivity.
Qed.

Lemma main_function_frame (w : wiki) (page_title other : string) :
  other <> page_title ->
  page_text (main_function w page_title) other = page_text w other.
Proof.
  intros Hne. unfold main_function.
  destruct (insertion_points _); [reflexivity|]. simpl.
  apply String.eqb_neq in Hne. now rewrite Hne.
Qed.

Lemma main_function_saves (w : wiki) (page_title : string) :
  exists extra,
    saves (main_function w page_title) = saves w ++ extra
    /\ List.length extra <= 1
    /\ Forall (fun s => fst (fst s) = page_title /\ snd s = insert_comment)
              extra.
Proof.
  unfold main_function.
  destruct (insertion_points _).
  - exists []. rewrite app_nil_r. repeat split; auto.
  - eexists [_]. simpl. repeat split; auto.
Qed.

(** X10. [main_function] touches the page it is given and no other: the
    text of every other page is as before, and it issues at most one
    save, on that page and with the comment of the insertion. *)
Theorem main_function_touches_its_page_only (w : wiki) (page_title : string) :
  (forall other,
      other <> page_title ->
      page_text (main_function w page_title) other = page_text w other)
  /\ exists extra,
       saves (main_function w page_title) = saves w ++ extra
       /\ List.length extra <= 1
       /\ Forall (fun s => fst (fst s) = page_title
                           /\ snd s = "Inserted the DOE content needed template.")
                 extra.
Proof.
  split; [intros; now apply main_function_frame | apply main_function_saves].
Qed.

(** ** A run of the bot *)

Lemma run_pages_frame (pages : list string) :
  forall (w : wiki) (seen other : string),
    ~ In other pages ->
    page_text (fst (run_pages pages w seen)) other = page_text w other.
Proof.
  induction pages as [|t pages IH]; intros w seen other Hn; simpl;
    [reflexivity|].
  rewrite IH by (intros H; apply Hn; now right).
  apply main_function_frame. intros ->. apply Hn. now left.
Qed.


(** X11. A run leaves alone every page that the listing did not answer
    and that is not the bookmark page. *)
Theorem run_touches_listed_pages_only
        (reference_page_title : string)
        (allpages : wiki -> string -> nat -> list string) (w : wiki)
        (other : string) :
  ~ In other (pages_from allpages w
                         (get_page_start reference_page_title w)) ->
  other <> reference_page_title ->
  page_text (run reference_page_title allpages w) other = page_text w other.
Proof.
  intros Hn Hr. unfold run.
  pose proof (run_pages_frame _ w EmptyString other Hn) as H.
  destruct (run_pages _ w EmptyString) as [w1 seen]. simpl in H.
  apply String.eqb_neq in Hr.
  destruct (_ <? _); simpl; now rewrite Hr.
Qed.

Lemma run_touches_listed_pages_only_witness :
  let w := MkWiki (fun t => if String.eqb t "A" then "== Topic at DOE =="
                            else "text") [] in
  page_text (run "Bookmark" (fun _ _ _ => ["A"; "B"]) w) "C"
  = page_text w "C".
Proof.
  apply (run_touches_listed_pages_only
           "Bookmark" (fun _ _ _ => ["A"; "B"])
           (MkWiki (fun t => if String.eqb t "A" then "== Topic at DOE =="
                             else "text") []) "C").
  - simpl. intros [H | [H | []]]; discriminate.
  - discriminate.
Defined.


(** X13. The next run starts where this one stored: when no title of the
    listing holds a newline, the start read back after a run is the empty
    string after a short batch and the last title of the listing after a
    full one. *)
Theorem next_start_after_run
        (reference_page_title : string)
        (allpages : wiki -> string -> nat -> list string) (w : wiki) :
  let pages :=
    pages_from allpages w (get_page_start reference_page_title w) in
  Forall (fun t => no_newline t = true) pages ->
  get_page_start reference_page_title (run reference_page_title allpages w)
  = if List.length pages <? PAGES_TO_GO_THROUGH
    then EmptyString else last pages EmptyString.
Proof.
  intros pages Hnl. unfold run. fold pages.
  pose proof (run_pages_last pages w EmptyString) as Hlast.
  destruct (run_pages pages w EmptyString) as [w1 seen]. simpl in Hlast.
  unfold get_page_start, set_page_start.
  destruct (List.length pages <? PAGES_TO_GO_THROUGH) eqn:E;
    rewrite page_text_saved; [reflexivity|].
  rewrite split_lines_single; [now rewrite Hlast|].
  subst seen. destruct pages as [|t pages']; [discriminate|].
  destruct (exists_last (l := t :: pages')) as (before & x & Hp);
    [discriminate|].
  rewrite Hp, last_last. rewrite Hp in Hnl.
  apply Forall_app in Hnl as [_ Hx]. now inversion Hx.
Qed.

Lemma next_start_after_run_witness :
  get_page_start "Bookmark"
    (run "Bookmark" (fun _ _ _ => ["A"; "B"]) (MkWiki (fun _ => "") []))
  = if List.length ["A"; "B"] <? PAGES_TO_GO_THROUGH
    then EmptyString else last ["A"; "B"] EmptyString.
Proof.
  apply (next_start_after_run "Bookmark" (fun _ _ _ => ["A"; "B"])
                              (MkWiki (fun _ => "") [])).
  repeat constructor.
Defined.

(** ** Strings and slices *)

Lemma str_app_assoc (a b c : string) :
  ((a ++ b) ++ c = a ++ b ++ c)%string.
Proof. induction a as [|x a IH]; simpl; [reflexivity | now rewrite IH]. Qed.

Lemma str_app_nil_r (a : string) : (a ++ "")%string = a.
Proof. induction a as [|x a IH]; simpl; [reflexivity | now rewrite IH]. Qed.

Lemma str_length_app (a b : string) :
  String.length (a ++ b) = String.length a + String.length b.
Proof. induction a as [|x a IH]; simpl; [reflexivity | now rewrite IH]. Qed.

Lemma equals_add (a b : nat) :
  equals (a + b) = (equals a ++ equals b)%string.
Proof.
  unfold equals. induction a as [|a IH]; simpl; [reflexivity|].
  now rewrite IH.
Qed.

Lemma substring_skip (x s : string) (n m : nat) :
  substring (String.length x + n) m (x ++ s) = substring n m s.
Proof. induction x as [|c x IH]; simpl; [reflexivity | exact IH]. Qed.

Lemma substring_take (a b : string) :
  substring 0 (String.length a) (a ++ b) = a.
Proof. induction a as [|c a IH]; simpl; [now destruct b | now rewrite IH]. Qed.

(** [(x + mid + y)[len(x):-len(y)]] is [mid], for [y] not empty. *)
Lemma slice_middle (x mid y : string) :
  1 <= String.length y ->
  PyStr.slice (x ++ mid ++ y)
              (Z.of_nat (String.length x)) (- Z.of_nat (String.length y))
  = mid.
Proof.
  intros Hy. unfold PyStr.slice, PyStr.clamp_index.
  rewrite !str_length_app.
  destruct (Z.ltb_spec (Z.of_nat (String.length x)) 0); [lia|].
  destruct (Z.ltb_spec (- Z.of_nat (String.length y)) 0); [|lia].
  rewrite Z.min_l, Z.max_l by lia.
  rewrite Nat2Z.id.
  replace (Z.to_nat _) with (String.length mid) by lia.
  rewrite <- (Nat.add_0_r (String.length x)), substring_skip.
  apply substring_take.
Qed.

Lemma last_char_snoc (s : string) (c : ascii) :
  last_char (s ++ String c "") = Some c.
Proof.
  induction s as [|d s IH]; simpl; [reflexivity|].
  rewrite IH. now destruct s.
Qed.

Lemma last_char_app (s t : string) (c : ascii) :
  last_char t = Some c -> last_char (s ++ t) = Some c.
Proof.
  intros Ht. induction s as [|d s IH]; simpl; [assumption|].
  destruct (s ++ t)%string as [|e u] eqn:E; [discriminate | exact IH].
Qed.

Lemma rstrip_snoc (s : string) (c : ascii) :
  PyStr.isspace c = false ->
  PyStr.rstrip (s ++ String c "") = (s ++ String c "")%string.
Proof.
  intros Hc. induction s as [|d s IH]; simpl.
  - now rewrite Hc.
  - rewrite IH. now destruct s.
Qed.

Lemma lstrip_snoc (s : string) (c : ascii) :
  PyStr.isspace c = false ->
  exists y, PyStr.lstrip (s ++ String c "") = (y ++ String c "")%string.
Proof.
  intros Hc. induction s as [|d s IH]; simpl.
  - rewrite Hc. now exists EmptyString.
  - destruct (PyStr.isspace d); [exact IH|]. now exists (String d s).
Qed.

Lemma lower_app (s t : string) :
  PyStr.lower (s ++ t) = (PyStr.lower s ++ PyStr.lower t)%string.
Proof. induction s as [|c s IH]; simpl; [reflexivity | now rewrite IH]. Qed.

(** A name that ends in [=] is no DOE title. *)
Lemma name_ending_in_equals (s : string) :
  in_doe_titles (PyStr.lower (PyStr.strip (s ++ "="))) = false.
Proof.
  unfold PyStr.strip.
  destruct (lstrip_snoc s "="%char eq_refl) as (y & ->).
  rewrite rstrip_snoc by reflexivity. rewrite lower_app.
  change (PyStr.lower "=") with "=".
  destruct (in_doe_titles _) eqn:E; [|reflexivity]. exfalso.
  unfold in_doe_titles, doe_titles in E. simpl in E.
  rewrite orb_false_r in E. apply orb_true_iff in E.
  pose proof (last_char_snoc (PyStr.lower y) "="%char) as Hl.
  destruct E as [E|E]; apply String.eqb_eq in E; rewrite E in Hl;
    discriminate.
Qed.

(** A name that begins with [=] is no DOE title. *)
Lemma name_beginning_with_equals (s : string) :
  in_doe_titles (PyStr.lower (PyStr.strip (String "="%char s))) = false.
Proof.
  unfold PyStr.strip.
  change (PyStr.lstrip (String "="%char s)) with (String "="%char s).
  simpl PyStr.rstrip.
  destruct (PyStr.rstrip s); reflexivity.
Qed.

(** ** What a match of the title pattern captures *)

Section FirstTry.
Context {A : Type}.
Variable p : ascii -> bool.

(** When the run of the class ends where the taken part ends and the
    continuation accepts, the first try is the answer. *)
Lemma greedy_first (taken rest : string) :
  forall (k : string -> string -> option A) (r : A),
    all_chars p taken = true ->
    head_not p rest = true ->
    k taken rest = Some r ->
    Re.greedy p (taken ++ rest) k = Some r.
Proof.
  induction taken as [|c t IH]; intros k r Hall Hhead Hk; simpl.
  - destruct rest as [|c s]; simpl in *; [assumption|].
    apply negb_true_iff in Hhead. now rewrite Hhead.
  - simpl in Hall. apply andb_true_iff in Hall as [Hc Ht]. rewrite Hc.
    now rewrite (IH (fun taken rest => k (String c taken) rest) r Ht Hhead Hk).
Qed.

Lemma quantified_plus_first (taken rest : string)
      (k : string -> string -> option A) (r : A) :
  all_chars p taken = true ->
  1 <= String.length taken ->
  head_not p rest = true ->
  k taken rest = Some r ->
  Re.quantified p Re.Plus (taken ++ rest) k = Some r.
Proof.
  intros Hall Hlen Hhead Hk.
  destruct taken as [|c t]; simpl in *; [lia|].
  apply andb_true_iff in Hall as [Hc Ht]. rewrite Hc.
  now apply (greedy_first t rest (fun t r => k (String c t) r)).
Qed.

Lemma quantified_opt_none (rest : string)
      (k : string -> string -> option A) :
  head_not p rest = true ->
  Re.quantified p Re.Opt rest k = k EmptyString rest.
Proof.
  intros Hhead. destruct rest as [|c s]; simpl in *; [reflexivity|].
  apply negb_true_iff in Hhead. now rewrite Hhead.
Qed.
End FirstTry.

Lemma head_not_equals_text (text rest : string) :
  text <> EmptyString -> no_equals text = true ->
  head_not is_eq_sign (text ++ rest) = true.
Proof.
  intros Hne Hno. destruct text as [|c t]; [contradiction|].
  unfold no_equals in Hno. simpl in *.
  now apply andb_true_iff in Hno as [Hc _].
Qed.

Lemma title_match_exact (a b : nat) (text : string) (nl : bool) :
  text <> EmptyString ->
  no_equals text = true ->
  Re.match_here title_search 0 (header_line (S a) text (S b) nl) []
  = Some (String.length (equals (S a) ++ text ++ equals (S b)),
          [equals (S a); text; equals (S b)]).
Proof.
  intros Hne Hno. unfold header_line, title_search.
  cbn [Re.match_here Nat.eqb].
  apply quantified_plus_first;
    [apply equals_all_eq_sign | rewrite equals_length; lia
     | now apply head_not_equals_text |].
  apply (greedy_first (fun c => negb (is_eq_sign c)) text);
    [exact Hno | reflexivity |].
  apply quantified_plus_first;
    [apply equals_all_eq_sign | rewrite equals_length; lia
     | now destruct nl |].
  rewrite quantified_opt_none by now destruct nl.
  replace (Re.at_end (if nl then String PyStr.newline "" else ""))
    with true by now destruct nl.
  simpl. rewrite !str_length_app. unfold equals. simpl.
  do 2 f_equal. lia.
Qed.

Lemma title_match_parts (line : string) (e : nat) (gs : list string) :
  Re.match_here title_search 0 line [] = Some (e, gs) ->
  exists (a1 a3 : nat) (t2 : string) (blank : bool) (r4 : string),
    let g := (equals (S a1) ++ t2 ++ equals (S a3)
              ++ (if blank then " " else ""))%string in
    line = (g ++ r4)%string
    /\ gs = [equals (S a1); t2; equals (S a3)]
    /\ e = String.length g
    /\ no_equals t2 = true
    /\ Re.at_end r4 = true.
Proof.
  unfold title_search. cbn [Re.match_here Nat.eqb]. intros H.
  apply quantified_sound in H.
  destruct H as (t1 & r1 & -> & Ht1 & Hf1 & H).
  apply quantified_sound in H.
  destruct H as (t2 & r2 & -> & Ht2 & _ & H).
  apply quantified_sound in H.
  destruct H as (t3 & r3 & -> & Ht3 & Hf3 & H).
  apply quantified_sound in H.
  destruct H as (t4 & r4 & -> & Ht4 & Hf4 & H).
  destruct (Re.at_end r4) eqn:He; [|discriminate].
  apply all_eq_sign_equals in Ht1, Ht3. simpl in Hf1, Hf3, Hf4.
  destruct (String.length t1) as [|a1] eqn:E1; [lia|].
  destruct (String.length t3) as [|a3] eqn:E3; [lia|].
  inversion H; subst e gs; clear H.
  exists a1, a3, t2, (match t4 with EmptyString => false | _ => true end), r4.
  assert (E4 : t4 = if match t4 with EmptyString => false | _ => true end
                    then " " else "").
  { destruct t4 as [|c [|c' t4]]; simpl in *; try lia; [reflexivity|].
    apply andb_true_iff in Ht4 as [Hc _]. apply Ascii.eqb_eq in Hc.
    now subst c. }
  cbv zeta. rewrite <- E4, <- Ht1, <- Ht3.
  split; [now rewrite !str_app_assoc|].
  split; [reflexivity|].
  split; [rewrite !str_length_app; lia|].
  split; [exact Ht2 | exact He].
Qed.

Lemma search_title_match (line : string) (m : Re.match_obj) :
  Re.search title_search line = Some m ->
  exists e gs,
    m = Re.MkMatch line 0 e gs
    /\ Re.match_here title_search 0 line [] = Some (e, gs).
Proof.
  unfold Re.search.
  destruct line as [|c s]; unfold Re.search_from; fold Re.search_from.
  - destruct (Re.match_here title_search 0 EmptyString [])
      as [[e gs]|]; [|discriminate].
    intros H; inversion H. eauto.
  - rewrite title_search_from_later.
    destruct (Re.match_here title_search 0 (String c s) [])
      as [[e gs]|]; [|discriminate].
    intros H; inversion H. eauto.
Qed.

Lemma match_here_search_title (line : string) (e : nat) (gs : list string) :
  Re.match_here title_search 0 line [] = Some (e, gs) ->
  Re.search title_search line = Some (Re.MkMatch line 0 e gs).
Proof.
  intros H. unfold Re.search.
  destruct line; unfold Re.search_from; fold Re.search_from;
    now rewrite H.
Qed.

(** ** Which lines are DOE headers *)

Lemma slice_middle_level (x mid y : string) (L : nat) :
  String.length x = L -> String.length y = L -> 1 <= L ->
  PyStr.slice (x ++ mid ++ y) (Z.of_nat L) (- Z.of_nat L) = mid.
Proof.
  intros Hx Hy HL. rewrite <- Hx at 1. rewrite <- Hy.
  apply slice_middle. lia.
Qed.

(** The name read off a match: the signs in excess of the level stay in
    it, and so does one closing sign when a blank follows the header. *)
Lemma true_name_parts (a1 a3 : nat) (t2 : string) (blank : bool)
      (r4 line : string) (e : nat) :
  let bl := if blank then 1 else 0 in
  let L := Nat.min (S a1) (S a3) in
  let g := (equals (S a1) ++ t2 ++ equals (S a3)
            ++ (if blank then " " else ""))%string in
  line = (g ++ r4)%string ->
  e = String.length g ->
  true_name (Re.MkMatch line 0 e [equals (S a1); t2; equals (S a3)])
  = PyStr.lower
      (PyStr.strip
         (equals (S a1 - L) ++ t2 ++ equals (S a3 + bl - L))).
Proof.
  intros bl L g -> ->.
  unfold true_name, Re.group, Re.group0.
  cbn [nth Re.m_groups Re.m_start Re.m_end Re.m_string].
  rewrite !equals_length, Nat.sub_0_r, substring_take. fold L.
  do 2 f_equal.
  assert (HL : 1 <= L /\ L <= S a1 /\ L <= S a3 /\ bl <= 1)
    by (subst L bl; destruct blank; lia).
  assert (H1 : equals (S a1) = (equals L ++ equals (S a1 - L))%string).
  { rewrite <- equals_add. f_equal. lia. }
  assert (H3 : equals (S a3)
               = (equals (S a3 + bl - L) ++ equals (L - bl))%string).
  { rewrite <- equals_add. f_equal. lia. }
  replace g with (equals L
                  ++ (equals (S a1 - L) ++ t2 ++ equals (S a3 + bl - L))
                  ++ (equals (L - bl) ++ (if blank then " " else "")))%string.
  - apply slice_middle_level; [apply equals_length | | lia].
    rewrite str_length_app, equals_length.
    subst bl. destruct blank; simpl; lia.
  - subst g. rewrite H1, H3 at 1. now rewrite !str_app_assoc.
Qed.

Lemma equals_succ_snoc (k : nat) : equals (S k) = (equals k ++ "=")%string.
Proof. replace (S k) with (k + 1) by lia. now rewrite equals_add. Qed.

Lemma doe_header_form (line : string) :
  _detect_doe_header line = true ->
  exists (n : nat) (text : string) (nl : bool),
    line = header_line (S n) text (S n) nl
    /\ no_equals text = true
    /\ in_doe_titles (PyStr.lower (PyStr.strip text)) = true.
Proof.
  unfold _detect_doe_header.
  destruct (Re.search title_search line) as [m|] eqn:Hs; [|discriminate].
  apply search_title_match in Hs as (e & gs & -> & Hm).
  apply title_match_parts in Hm
    as (a1 & a3 & t2 & blank & r4 & Hline & -> & He & Ht2 & Hend).
  cbv zeta in Hline, He.
  rewrite (true_name_parts a1 a3 t2 blank r4 line e Hline He).
  destruct blank.
  - replace (S a3 + 1 - Nat.min (S a1) (S a3))
      with (S (S a3 - Nat.min (S a1) (S a3))) by lia.
    rewrite equals_succ_snoc, <- !str_app_assoc, name_ending_in_equals.
    discriminate.
  - rewrite Nat.add_0_r.
    destruct (Nat.lt_trichotomy a1 a3) as [Hlt | [-> | Hgt]].
    + replace (S a3 - Nat.min (S a1) (S a3))
        with (S (a3 - S a1)) by lia.
      rewrite equals_succ_snoc, <- !str_app_assoc, name_ending_in_equals.
      discriminate.
    + rewrite Nat.min_id, Nat.sub_diag. unfold equals at 1 2. simpl.
      rewrite str_app_nil_r. intros Hin.
      apply at_end_cases in Hend.
      exists a3, t2, (match r4 with EmptyString => false | _ => true end).
      split; [|auto]. subst line. unfold header_line.
      rewrite !str_app_assoc. simpl.
      destruct Hend; subst r4; reflexivity.
    + replace (S a1 - Nat.min (S a1) (S a3))
        with (S (a1 - S a3)) by lia.
      unfold equals at 1. simpl. rewrite name_beginning_with_equals.
      discriminate.
Qed.

Lemma doe_header_exact (a b : nat) (text : string) (nl : bool) :
  text <> EmptyString ->
  no_equals text = true ->
  let L := Nat.min (S a) (S b) in
  _detect_doe_header (header_line (S a) text (S b) nl)
  = in_doe_titles
      (PyStr.lower
         (PyStr.strip (equals (S a - L) ++ text ++ equals (S b - L)))).
Proof.
  intros Hne Hno L. unfold _detect_doe_header.
  rewrite (match_here_search_title _ _ _
             (title_match_exact a b text nl Hne Hno)).
  rewrite (true_name_parts a b text false
             (if nl then String PyStr.newline "" else "")).
  - cbv zeta. now rewrite Nat.add_0_r.
  - cbv zeta. unfold header_line. rewrite !str_app_assoc. reflexivity.
  - cbv zeta. simpl. now rewrite !str_app_nil_r.
Qed.

Lemma empty_name_no_title :
  in_doe_titles (PyStr.lower (PyStr.strip EmptyString)) = false.
Proof. reflexivity. Qed.

(** X15. A line is a DOE header exactly when it is a run of [=], a text
    without [=] and a run of [=] of the same length, with nothing after
    it but at most a final newline, and the text, stripped and in lower
    case, is one of the two DOE titles. *)
Theorem doe_header_iff (line : string) :
  _detect_doe_header line = true
  <-> exists (n : nat) (text : string) (nl : bool),
        line = header_line (S n) text (S n) nl
        /\ no_equals text = true
        /\ in_doe_titles (PyStr.lower (PyStr.strip text)) = true.
Proof.
  split; [apply doe_header_form|].
  intros (n & text & nl & -> & Hno & Hin).
  assert (Hne : text <> EmptyString).
  { intros ->. rewrite empty_name_no_title in Hin. discriminate. }
  rewrite (doe_header_exact n n text nl Hne Hno). cbv zeta.
  rewrite Nat.min_id, Nat.sub_diag. unfold equals. simpl.
  now rewrite str_app_nil_r.
Qed.

(** X16. A header whose two runs of [=] differ in length is never a DOE
    header, whatever its text: the signs in excess stay in the name. *)
Theorem unbalanced_header_not_doe (a b : nat) (text : string) (nl : bool) :
  text <> EmptyString ->
  no_equals text = true ->
  a <> b ->
  _detect_doe_header (header_line (S a) text (S b) nl) = false.
Proof.
  intros Hne Hno Hab.
  rewrite (doe_header_exact a b text nl Hne Hno). cbv zeta.
  destruct (Nat.lt_trichotomy a b) as [Hlt | [-> | Hgt]];
    [| contradiction |].
  - replace (S a - Nat.min (S a) (S b)) with 0 by lia.
    replace (S b - Nat.min (S a) (S b)) with (S (b - S a)) by lia.
    rewrite equals_succ_snoc, <- !str_app_assoc.
    apply name_ending_in_equals.
  - replace (S a - Nat.min (S a) (S b)) with (S (a - S b)) by lia.
    unfold equals at 1. simpl. apply name_beginning_with_equals.
Qed.

Lemma unbalanced_header_not_doe_witness :
  _detect_doe_header (header_line 3 " Topic at DOE " 2 false) = false.
Proof.
  apply (unbalanced_header_not_doe 2 1 " Topic at DOE " false).
  - discriminate.
  - reflexivity.
  - discriminate.
Defined.

Lemma header_line_last_char (a : nat) (text : string) (b : nat) (nl : bool) :
  last_char (header_line a text (S b) nl)
  = Some (if nl then PyStr.newline else "="%char).
Proof.
  unfold header_line. rewrite <- !str_app_assoc.
  destruct nl.
  - apply last_char_snoc.
  - rewrite str_app_nil_r, equals_succ_snoc, <- !str_app_assoc.
    apply last_char_snoc.
Qed.

(** X17. No line that ends in a blank is a DOE header, although the title
    pattern lets one blank follow a header. *)
Theorem line_ending_in_blank_not_doe (s : string) :
  _detect_doe_header (s ++ " ") = false.
Proof.
  destruct (_detect_doe_header (s ++ " ")) eqn:E; [|reflexivity].
  apply doe_header_form in E as (n & text & nl & E & _).
  apply (f_equal last_char) in E.
  rewrite last_char_snoc, header_line_last_char in E.
  destruct nl; discriminate.
Qed.

(** ** Pages after a run *)

Lemma main_function_leaves_empty_plan (w : wiki) (page_title : string) :
  insertion_points (_get_page_text (main_function w page_title) page_title)
  = [].
Proof.
  rewrite main_function_lines. unfold insertion_points.
  destruct (rescan_invariant (_get_page_text w page_title)) as (_ & _ & H).
  exact H.
Qed.

Lemma run_pages_leaves_empty_plan (pages : list string) :
  forall (w : wiki) (seen page_title : string),
    In page_title pages ->
    insertion_points
      (_get_page_text (fst (run_pages pages w seen)) page_title)
    = [].
Proof.
  induction pages as [|u pages IH]; intros w seen t Hin; [contradiction|].
  simpl.
  destruct (in_dec string_dec t pages) as [Hlater | Hlast].
  - now apply IH.
  - destruct Hin as [-> | Hin]; [|contradiction].
    unfold _get_page_text. rewrite run_pages_frame by assumption.
    apply main_function_leaves_empty_plan.
Qed.

(** X14. After a run every listed page other than the bookmark page has
    an empty plan: the run has put a template wherever the scan asks for
    one, also on a page that the listing names twice. *)
Theorem run_leaves_nothing_to_insert
        (reference_page_title : string)
        (allpages : wiki -> string -> nat -> list string) (w : wiki)
        (page_title : string) :
  In page_title (pages_from allpages w
                            (get_page_start reference_page_title w)) ->
  page_title <> reference_page_title ->
  insertion_points
    (_get_page_text (run reference_page_title allpages w) page_title)
  = [].
Proof.
  intros Hin Hne. unfold run.
  pose proof (run_pages_leaves_empty_plan _ w EmptyString page_title Hin)
    as H.
  destruct (run_pages _ w EmptyString) as [w1 seen]. simpl in H.
  apply String.eqb_neq in Hne.
  unfold _get_page_text in *.
  destruct (_ <? _); simpl; now rewrite Hne.
Qed.

Lemma run_leaves_nothing_to_insert_witness :
  insertion_points
    (_get_page_text
       (run "Bookmark" (fun _ _ _ => ["A"; "B"])
            (MkWiki (fun t => if String.eqb t "A"
                              then PyStr.join_lines
                                     ["== Topic at DOE =="; "== See Also ==";
                                      "== Other =="]
                              else "text") []))
       "A")
  = [].
Proof.
  apply (run_leaves_nothing_to_insert
           "Bookmark" (fun _ _ _ => ["A"; "B"])
           (MkWiki (fun t => if String.eqb t "A"
                             then PyStr.join_lines
                                    ["== Topic at DOE =="; "== See Also ==";
                                     "== Other =="]
                             else "text") []) "A").
  - simpl. now left.
  - discriminate.
Defined.
